(** * node-reverse-proxy: a shallow embedding of the dispatch and
      response-inspection pipeline

    The development follows the Go sources: [node.go] (the per-node counters,
    [ModifyResponse], [tryDecompressResponse]), [main.go] ([nextNode],
    [buildNode], the [/healthz] handler, [runPrintNodeMetrics]) and
    [logger.go] ([ConsoleLogger]). [main.go] is followed in its later form,
    the one with the health-check proxy, in which the hook installed by
    [buildNode] returns the error of [ModifyResponse].

    The packages the program imports (compress/gzip, compress/flate,
    antchfx/jsonquery, encoding/json) are taken as an interface, the class
    [GoLibs]; every general theorem holds for any implementation of it.
    [RefLibs], further down, is one implementation used to run the model on
    concrete responses. *)

From Stdlib Require Import ZArith Lia Ascii String.
From stdpp Require Import base list strings gmap pretty.

Local Open Scope Z_scope.

(** ** Machine data *)

(** A [[]byte]; Go strings and byte slices are both byte sequences. *)
Definition bytes := string.

(** Go's [error] values, identified by their text. *)
Definition error := string.

(** [len(b)] *)
Definition len (b : bytes) : Z := Z.of_nat (String.length b).

(** [uint64] arithmetic wraps around. *)
Definition uint64_modulus : Z := 2 ^ 64.

(** [atomic.AddUint64(&addr, delta)], also the [Add] method of
    [atomic.Uint64]: the new value. *)
Definition atomic_AddUint64 (addr delta : Z) : Z :=
  (addr + delta) mod uint64_modulus.

(** Go's [(T, error)] results where only one side is meaningful. *)
Inductive result (A : Type) : Type :=
| Ok (a : A)
| Err (e : error).
Arguments Ok {A} a.
Arguments Err {A} e.

(** ** io: readers

    A reader is described by what reading it to the end gives: the bytes it
    yields and the error, if any, that ends it instead of EOF. *)
Record Reader := mkReader {
  pending : bytes;
  fault : option error
}.

(** [bytes.NewReader(b)], also under [io.NopCloser]. *)
Definition bytes_NewReader (b : bytes) : Reader := mkReader b None.

(** [io.ReadAll(r)]: the data read, the error, and the reader left behind. *)
Definition io_ReadAll (r : Reader) : bytes * option error * Reader :=
  (pending r, fault r, mkReader EmptyString (fault r)).

(** ** JSON documents

    [JNumber] keeps the literal. In a jsonquery document every object member
    is an element node named after its key, every array item is an element
    node of its own, and scalars are text nodes. *)
#[warnings="-register-all"]
Inductive json : Type :=
| JNull
| JBool (b : bool)
| JNumber (lit : string)
| JString (s : string)
| JArray (items : list json)
| JObject (members : list (string * json)).

(** [jsonquery.FindOne(doc, "//" + name)]: the first element node called
    [name], in document order, at any depth; the result is its value. *)
Fixpoint FindOne (name : string) (doc : json) : option json :=
  match doc with
  | JObject ms =>
      (fix members (ms : list (string * json)) : option json :=
         match ms with
         | [] => None
         | (k, v) :: ms' =>
             if String.eqb k name then Some v
             else match FindOne name v with
                  | Some n => Some n
                  | None => members ms'
                  end
         end) ms
  | JArray xs =>
      (fix items (xs : list json) : option json :=
         match xs with
         | [] => None
         | x :: xs' =>
             match FindOne name x with
             | Some n => Some n
             | None => items xs'
             end
         end) xs
  | _ => None
  end.

(** The spec's words: a field named [name] appears in the document, at the
    top level or nested in members and array items. *)
Inductive HasField (name : string) : json -> Prop :=
| HasField_here ms v :
    In (name, v) ms -> HasField name (JObject ms)
| HasField_member ms k v :
    In (k, v) ms -> HasField name v -> HasField name (JObject ms)
| HasField_item xs x :
    In x xs -> HasField name x -> HasField name (JArray xs).

(** Induction on documents, through the lists of items and members. *)
Section json_induction.
Variable P : json -> Prop.
Hypothesis Hnull : P JNull.
Hypothesis Hbool : forall b, P (JBool b).
Hypothesis Hnumber : forall lit, P (JNumber lit).
Hypothesis Hstring : forall s, P (JString s).
Hypothesis Harray : forall xs, Forall P xs -> P (JArray xs).
Hypothesis Hobject :
  forall ms, Forall (fun kv => P (snd kv)) ms -> P (JObject ms).

Fixpoint json_nested_ind (j : json) : P j :=
  match j with
  | JNull => Hnull
  | JBool b => Hbool b
  | JNumber lit => Hnumber lit
  | JString s => Hstring s
  | JArray xs =>
      Harray xs
        ((fix all (xs : list json) : Forall P xs :=
            match xs with
            | [] => List.Forall_nil P
            | x :: xs' =>
                List.Forall_cons P x xs' (json_nested_ind x) (all xs')
            end) xs)
  | JObject ms =>
      Hobject ms
        ((fix all (ms : list (string * json))
            : Forall (fun kv => P (snd kv)) ms :=
            match ms with
            | [] => List.Forall_nil _
            | kv :: ms' =>
                List.Forall_cons _ kv ms' (json_nested_ind (snd kv))
                                 (all ms')
            end) ms)
  end.
End json_induction.

(** ** The imported packages *)
Class GoLibs := {
  (** [gzip.NewReader(r)]: fails when the gzip header cannot be read; the
      reader it returns yields the decompressed payload. *)
  gzip_NewReader : Reader -> result Reader;
  (** [flate.NewReader(r)]: never fails by itself; reading fails on a
      corrupt or truncated stream. *)
  flate_NewReader : Reader -> Reader;
  (** [jsonquery.Parse(r)] *)
  jsonquery_Parse : Reader -> result json;
  (** [json.NewDecoder(r)], [UseNumber()], [Decode(&m)] with [m] a
      [map[string]any]: the map after decoding. *)
  json_Decode : Reader -> result (gmap string json)
}.

(** ** logger.go *)
Inductive Level := DEBUG | INFO | WARN | ERROR | FATAL.

(** The format strings of the program, with their arguments. *)
Inductive Message :=
| MsgRoundRobin (nextIndex : Z)
| MsgDetectError (node : string) (content : json)
| MsgParseError (node : string) (err : error)
| MsgMetricsStart
| MsgNodeMetrics (node : string) (calls c2xx c4xx c5xx : Z)
| MsgHealthCreateRequest (err : error)
| MsgHealthRequest (err : error)
| MsgHealthRead (err : error)
| MsgHealthDecode (err : error)
| MsgHealthUnexpected (result : bool)
| MsgHealthResult (result : option json).

Definition LogLine : Type := Level * Message.

Record ConsoleLogger := { debug : bool }.

Definition NewConsoleLogger (debug : bool) : ConsoleLogger :=
  {| debug := debug |}.

Definition Debugf (c : ConsoleLogger) (m : Message) : list LogLine :=
  if debug c then [(DEBUG, m)] else [].
Definition Infof (c : ConsoleLogger) (m : Message) : list LogLine :=
  [(INFO, m)].
Definition Warnf (c : ConsoleLogger) (m : Message) : list LogLine :=
  [(WARN, m)].
Definition Errorf (c : ConsoleLogger) (m : Message) : list LogLine :=
  [(ERROR, m)].

(** ** node.go *)

(** [http.Header]: canonical key to values. *)
Definition Header_Get (h : gmap string (list string)) (key : string) : string :=
  match h !! key with
  | Some (v :: _) => v
  | _ => EmptyString
  end.

Definition Header_Set (h : gmap string (list string)) (key value : string)
  : gmap string (list string) :=
  <[key := [value]]> h.

(** The fields of [http.Response] the program touches. *)
Record Response := mkResponse {
  StatusCode : Z;
  Header : gmap string (list string);
  Body : Reader;
  ContentLength : Z
}.

(** [ReverseProxyNode]; the [Proxy] handle is the transport, whose hook is
    [ModifyResponse] below. *)
Record ReverseProxyNode := mkNode {
  URL : string;
  Calls : Z;
  Calls2XX : Z;
  Calls4XX : Z;
  Calls5XX : Z
}.

(** [atomic.AddUint64(&node.Calls, 1)], the first statement of
    [ModifyResponse]. *)
Definition countCall (node : ReverseProxyNode) : ReverseProxyNode :=
  mkNode (URL node) (atomic_AddUint64 (Calls node) 1)
         (Calls2XX node) (Calls4XX node) (Calls5XX node).

(** The deferred closure of [ModifyResponse]; it reads [statusCode] when the
    function returns. *)
Definition classify (statusCode : Z) (node : ReverseProxyNode)
  : ReverseProxyNode :=
  if (200 <=? statusCode) && (statusCode <? 300) then
    mkNode (URL node) (Calls node) (atomic_AddUint64 (Calls2XX node) 1)
           (Calls4XX node) (Calls5XX node)
  else if (400 <=? statusCode) && (statusCode <? 500) then
    mkNode (URL node) (Calls node) (Calls2XX node)
           (atomic_AddUint64 (Calls4XX node) 1) (Calls5XX node)
  else if (500 <=? statusCode) && (statusCode <? 600) then
    mkNode (URL node) (Calls node) (Calls2XX node) (Calls4XX node)
           (atomic_AddUint64 (Calls5XX node) 1)
  else node.

(** What a call of [ModifyResponse] leaves behind. *)
Record Outcome := mkOutcome {
  node_after : ReverseProxyNode;
  resp_after : Response;
  logged : list LogLine;
  returned : option error
}.

Section Inspector.
Context `{libs : GoLibs} (logger : ConsoleLogger).

Definition tryDecompressResponse (r : Response) (b : bytes)
  : bytes * option error :=
  if String.eqb (Header_Get (Header r) "Content-Encoding") "gzip" then
    match gzip_NewReader (bytes_NewReader b) with
    | Err _ => (b, None)
    | Ok ub => fst (io_ReadAll ub)
    end
  else if String.eqb (Header_Get (Header r) "Content-Encoding") "deflate" then
    let ub := flate_NewReader (bytes_NewReader b) in
    fst (io_ReadAll ub)
  else (b, None).

(** The statements of [ModifyResponse] from the call of
    [tryDecompressResponse] to the end of the [if] that follows it: the
    value they leave in the local [statusCode] and the lines they log. *)
Definition inspect (node : ReverseProxyNode) (r : Response) (b : bytes)
  : Z * list LogLine :=
  let statusCode := StatusCode r in
  match tryDecompressResponse r b with
  | (ub, None) =>
      match jsonquery_Parse (bytes_NewReader ub) with
      | Ok doc =>
          match FindOne "error" doc with
          | Some errorNode =>
              (429, Warnf logger (MsgDetectError (URL node) errorNode))
          | None => (statusCode, [])
          end
      | Err err => (statusCode, Warnf logger (MsgParseError (URL node) err))
      end
  | (_, Some _) => (statusCode, [])
  end.

(** [ModifyResponse]. The first [defer] is [classify], applied on both ways
    out; the second one closes the upstream body, which changes none of the
    fields kept here. *)
Definition ModifyResponse (node : ReverseProxyNode) (r : Response)
  : Outcome :=
  let node := countCall node in
  let statusCode := StatusCode r in
  match io_ReadAll (Body r) with
  | (b, Some err, drained) =>
      mkOutcome (classify statusCode node)
                (mkResponse (StatusCode r) (Header r) drained
                            (ContentLength r))
                [] (Some err)
  | (b, None, _) =>
      let '(statusCode, lines) := inspect node r b in
      let body := bytes_NewReader b in
      mkOutcome (classify statusCode node)
                (mkResponse (StatusCode r)
                            (Header_Set (Header r) "Content-Length"
                                        (pretty (len b)))
                            body (len b))
                lines None
  end.

(** The value of the local [statusCode] when the deferred closure runs. *)
Definition finalStatus (node : ReverseProxyNode) (r : Response) : Z :=
  match io_ReadAll (Body r) with
  | (_, Some _, _) => StatusCode r
  | (b, None, _) => fst (inspect (countCall node) r b)
  end.

End Inspector.

(** [buildNode(target)]: the counters start at Go's zero value; the hook set
    on the proxy returns what [ModifyResponse] returns. *)
Definition buildNode (target : string) : ReverseProxyNode :=
  mkNode target 0 0 0 0.

(** [http.Status...] *)
Definition StatusOK : Z := 200.
Definition StatusInternalServerError : Z := 500.
Definition StatusBadGateway : Z := 502.
Definition StatusServiceUnavailable : Z := 503.

(** What httputil.ReverseProxy sends to the client once the hook has run:
    the status and body of the response when the hook returned nil, the
    default error handler's empty 502 when it returned an error. *)
Definition delivered (o : Outcome) : Z * bytes :=
  match returned o with
  | None => (StatusCode (resp_after o), pending (Body (resp_after o)))
  | Some _ => (StatusBadGateway, EmptyString)
  end.

(** ** The counters under interleaving

    Concurrent calls of [ModifyResponse] on one node interleave their two
    atomic updates: [Enter] is the increment of [Calls], [Leave] the deferred
    classification of a call that has entered. *)
Inductive Step :=
| Enter
| Leave (statusCode : Z).

Record NodeState := mkNodeState {
  counters : ReverseProxyNode;
  inflight : nat
}.

Definition step (s : Step) (st : NodeState) : option NodeState :=
  match s with
  | Enter => Some (mkNodeState (countCall (counters st)) (S (inflight st)))
  | Leave statusCode =>
      match inflight st with
      | O => None
      | S n => Some (mkNodeState (classify statusCode (counters st)) n)
      end
  end.

Fixpoint run (steps : list Step) (st : NodeState) : option NodeState :=
  match steps with
  | [] => Some st
  | s :: steps' =>
      match step s st with
      | Some st' => run steps' st'
      | None => None
      end
  end.

Definition started (target : string) : NodeState :=
  mkNodeState (buildNode target) O.

(** How many calls entered, and how many left in each class. *)
Definition isEnter (s : Step) : bool :=
  match s with Enter => true | Leave _ => false end.
Definition in2XX (s : Step) : bool :=
  match s with Leave c => (200 <=? c) && (c <? 300) | Enter => false end.
Definition in4XX (s : Step) : bool :=
  match s with Leave c => (400 <=? c) && (c <? 500) | Enter => false end.
Definition in5XX (s : Step) : bool :=
  match s with Leave c => (500 <=? c) && (c <? 600) | Enter => false end.

Fixpoint tally (p : Step -> bool) (steps : list Step) : Z :=
  match steps with
  | [] => 0
  | s :: steps' => (if p s then 1 else 0) + tally p steps'
  end.

(** ** main.go *)

(** The package variables [ReverseProxyNodes] and [nodesIndex]. *)
Record Registry := mkRegistry {
  ReverseProxyNodes : list ReverseProxyNode;
  nodesIndex : Z
}.

Record Selection := mkSelection {
  registry_after : Registry;
  nextIndex : Z;
  selected : ReverseProxyNode;
  selection_log : list LogLine
}.

(** [nextNode()]. [None] is a run-time panic: the remainder by an empty
    list's length. *)
Definition nextNode (logger : ConsoleLogger) (g : Registry)
  : option Selection :=
  let nextIndex := atomic_AddUint64 (nodesIndex g) 1 in
  let n := Z.of_nat (length (ReverseProxyNodes g)) in
  if n =? 0 then None
  else
    let nextIndex := nextIndex mod n in
    match ReverseProxyNodes g !! Z.to_nat nextIndex with
    | Some node =>
        Some (mkSelection
                (mkRegistry (ReverseProxyNodes g)
                            (atomic_AddUint64 (nodesIndex g) 1))
                nextIndex node
                (Debugf logger (MsgRoundRobin nextIndex)))
    | None => None
    end.

(** [K] successive calls of [nextNode]: the indices chosen, in order. *)
Fixpoint selections (logger : ConsoleLogger) (K : nat) (g : Registry)
  : option (list Z) :=
  match K with
  | O => Some []
  | S K' =>
      match nextNode logger g with
      | Some s =>
          match selections logger K' (registry_after s) with
          | Some rest => Some (nextIndex s :: rest)
          | None => None
          end
      | None => None
      end
  end.

(** *** The [/healthz] handler *)

(** What happens to the probe request. *)
Inductive Upstream :=
| CannotCreateRequest (err : error)
| TransportFailure (err : error)
| Responded (body : Reader).

(** What the handler leaves on its [http.ResponseWriter]. *)
Record Reply := mkReply {
  status : Z;
  replyHeader : gmap string (list string);
  written : bytes;
  reply_log : list LogLine
}.

Section Healthz.
Context `{libs : GoLibs} (logger : ConsoleLogger).

Definition probe (up : Upstream) : Reply :=
  match up with
  | CannotCreateRequest err =>
      mkReply StatusInternalServerError ∅ EmptyString
              (Errorf logger (MsgHealthCreateRequest err))
  | TransportFailure err =>
      mkReply StatusServiceUnavailable ∅ EmptyString
              (Errorf logger (MsgHealthRequest err))
  | Responded body =>
      match io_ReadAll body with
      | (_, Some err, _) =>
          mkReply StatusInternalServerError ∅ EmptyString
                  (Errorf logger (MsgHealthRead err))
      | (b, None, _) =>
          match json_Decode (bytes_NewReader b) with
          | Err err =>
              mkReply StatusInternalServerError ∅ EmptyString
                      (Errorf logger (MsgHealthDecode err))
          | Ok jsonResp =>
              let result := jsonResp !! "result" in
              match result with
              | Some (JBool boolResult) =>
                  if boolResult then
                    mkReply StatusInternalServerError ∅ EmptyString
                            (Errorf logger (MsgHealthUnexpected boolResult))
                  else mkReply StatusOK ∅ EmptyString []
              | _ =>
                  mkReply StatusBadGateway
                          (Header_Set ∅ "Content-Type"
                                      "application/json;charset=utf8")
                          b
                          (Infof logger (MsgHealthResult result))
              end
          end
      end
  end.

(** The handler; [None] is the panic of [ReverseProxyNodes[0]] on an empty
    list. *)
Definition healthz (nodeHealthProxy : bool) (g : Registry) (up : Upstream)
  : option Reply :=
  if nodeHealthProxy then
    match ReverseProxyNodes g !! O with
    | Some node => Some (probe up)
    | None => None
    end
  else Some (mkReply StatusOK ∅ EmptyString []).

End Healthz.

(** *** [runPrintNodeMetrics] *)

(** What the [select] of the loop receives: a tick, with the counters as they
    are read then, or the cancellation of the context. *)
Inductive Event :=
| Tick (nodes : list ReverseProxyNode)
| Cancelled.

Inductive Task :=
| Returned (tickerCreated : bool) (lines : list LogLine)
| Waiting (lines : list LogLine)
| Panicked.

Definition printNodes (logger : ConsoleLogger) (nodes : list ReverseProxyNode)
  : list LogLine :=
  Infof logger MsgMetricsStart ++
  flat_map (fun node =>
              Infof logger (MsgNodeMetrics (URL node) (Calls node)
                              (Calls2XX node) (Calls4XX node) (Calls5XX node)))
           nodes.

Fixpoint metricsLoop (logger : ConsoleLogger) (events : list Event)
  (lines : list LogLine) : Task :=
  match events with
  | [] => Waiting lines
  | Tick nodes :: events' =>
      metricsLoop logger events' (lines ++ printNodes logger nodes)
  | Cancelled :: _ => Returned true lines
  end.

(** [time.NewTicker] panics on a negative interval. *)
Definition runPrintNodeMetrics (logger : ConsoleLogger)
  (printMetricsInterval : Z) (events : list Event) : Task :=
  let interval := printMetricsInterval in
  if interval =? 0 then Returned false []
  else if interval <? 0 then Panicked
  else metricsLoop logger events [].

(** ** A reference implementation of the imported packages

    [RefLibs] implements [GoLibs] on a subset of the inputs of the Go
    packages, enough to run the model on concrete responses:
    - JSON texts in ASCII (bytes above 127 are copied as they are);
    - DEFLATE streams made of stored blocks (RFC 1951, 3.2.4);
    - gzip members without optional header fields (RFC 1952).
    A stream outside the subset ends with the error [notCovered]. The
    general theorems do not depend on this module. *)
Module Ref.

Definition code (c : ascii) : Z := Z.of_N (N_of_ascii c).
Definition char (z : Z) : ascii := ascii_of_N (Z.to_N z).
Definition str (c : ascii) : string := String c EmptyString.

(** The byte sequence with the given codes. *)
Fixpoint of_codes (codes : list Z) : string :=
  match codes with
  | [] => EmptyString
  | z :: codes' => String (char z) (of_codes codes')
  end.

Definition quote : ascii := char 34.
Definition backslash : ascii := char 92.

Definition notCovered : error := "not covered by the reference".
Definition ErrUnexpectedEOF : error := "unexpected EOF".
Definition ErrSyntax : error := "invalid character".
Definition ErrHeader : error := "gzip: invalid header".
Definition ErrChecksum : error := "gzip: invalid checksum".
Definition ErrCorrupt : error := "flate: corrupt input".
Definition ErrUnmarshalType : error :=
  "json: cannot unmarshal into Go value of type map[string]interface {}".

(** *** JSON texts *)

Definition is_space (c : ascii) : bool :=
  let n := code c in (n =? 32) || (n =? 9) || (n =? 10) || (n =? 13).

Definition is_digit (c : ascii) : bool :=
  let n := code c in (48 <=? n) && (n <=? 57).

Fixpoint skip_space (s : string) : string :=
  match s with
  | String c r => if is_space c then skip_space r else s
  | EmptyString => s
  end.

(** The longest prefix of digits and what follows it. *)
Fixpoint digits (s : string) : string * string :=
  match s with
  | String c r =>
      if is_digit c then let '(ds, r') := digits r in (String c ds, r')
      else (EmptyString, s)
  | EmptyString => (EmptyString, s)
  end.

(** [expect lit s]: [s] without its prefix [lit]. *)
Fixpoint expect (lit s : string) : option string :=
  match lit, s with
  | EmptyString, _ => Some s
  | String a lit', String b s' =>
      if Ascii.eqb a b then expect lit' s' else None
  | String _ _, EmptyString => None
  end.

Definition hex (c : ascii) : option Z :=
  let n := code c in
  if (48 <=? n) && (n <=? 57) then Some (n - 48)
  else if (97 <=? n) && (n <=? 102) then Some (n - 87)
  else if (65 <=? n) && (n <=? 70) then Some (n - 55)
  else None.

Definition hex4 (a b c d : ascii) : option Z :=
  match hex a, hex b, hex c, hex d with
  | Some x, Some y, Some z, Some w => Some (((x * 16 + y) * 16 + z) * 16 + w)
  | _, _, _, _ => None
  end.

(** UTF-8 of a code point. *)
Definition utf8 (cp : Z) : string :=
  if cp <? 128 then str (char cp)
  else if cp <? 2048 then
    String (char (192 + cp / 64)) (str (char (128 + cp mod 64)))
  else if cp <? 65536 then
    String (char (224 + cp / 4096))
      (String (char (128 + (cp / 64) mod 64)) (str (char (128 + cp mod 64))))
  else
    String (char (240 + cp / 262144))
      (String (char (128 + (cp / 4096) mod 64))
         (String (char (128 + (cp / 64) mod 64))
            (str (char (128 + cp mod 64))))).

Definition replacement : Z := 65533.

(** The text of a string literal after its opening quote, unescaped, and
    what follows the closing quote. *)
Fixpoint literal (s : string) : option (string * string) :=
  match s with
  | EmptyString => None
  | String c r =>
      if Ascii.eqb c quote then Some (EmptyString, r)
      else if Ascii.eqb c backslash then
        match r with
        | String e r1 =>
            let simple (x : Z) :=
              match literal r1 with
              | Some (t, r') => Some (String (char x) t, r')
              | None => None
              end in
            let n := code e in
            if n =? 34 then simple 34
            else if n =? 92 then simple 92
            else if n =? 47 then simple 47
            else if n =? 98 then simple 8
            else if n =? 102 then simple 12
            else if n =? 110 then simple 10
            else if n =? 114 then simple 13
            else if n =? 116 then simple 9
            else if n =? 117 then
              match r1 with
              | String h1 (String h2 (String h3 (String h4 r2))) =>
                  match hex4 h1 h2 h3 h4 with
                  | Some hi =>
                      if (55296 <=? hi) && (hi <? 56320) then
                        match r2 with
                        | String b (String u (String l1 (String l2
                            (String l3 (String l4 r3))))) =>
                            match hex4 l1 l2 l3 l4 with
                            | Some lo =>
                                if Ascii.eqb b backslash && (code u =? 117)
                                   && (56320 <=? lo) && (lo <? 57344)
                                then
                                  match literal r3 with
                                  | Some (t, r') =>
                                      Some (utf8 (65536 + (hi - 55296) * 1024
                                                  + (lo - 56320)) +:+ t, r')
                                  | None => None
                                  end
                                else
                                  match literal r2 with
                                  | Some (t, r') =>
                                      Some (utf8 replacement +:+ t, r')
                                  | None => None
                                  end
                            | None =>
                                match literal r2 with
                                | Some (t, r') =>
                                    Some (utf8 replacement +:+ t, r')
                                | None => None
                                end
                            end
                        | _ =>
                            match literal r2 with
                            | Some (t, r') =>
                                Some (utf8 replacement +:+ t, r')
                            | None => None
                            end
                        end
                      else
                        match literal r2 with
                        | Some (t, r') =>
                            Some (utf8 (if (56320 <=? hi) && (hi <? 57344)
                                        then replacement else hi) +:+ t, r')
                        | None => None
                        end
                  | None => None
                  end
              | _ => None
              end
            else None
        | EmptyString => None
        end
      else if code c <? 32 then None
      else
        match literal r with
        | Some (t, r') => Some (String c t, r')
        | None => None
        end
  end.

(** A number literal: an optional minus sign, an integer part without
    leading zeros, an optional fraction and an optional exponent. *)
Definition number (s : string) : option (string * string) :=
  let '(sign, s1) :=
    match s with
    | String c r => if code c =? 45 then (str c, r) else (EmptyString, s)
    | EmptyString => (EmptyString, s)
    end in
  let int :=
    match s1 with
    | String c r =>
        if code c =? 48 then Some (str c, r)
        else if is_digit c then Some (digits s1)
        else None
    | EmptyString => None
    end in
  match int with
  | None => None
  | Some (i, s2) =>
      let frac :=
        match s2 with
        | String c r =>
            if code c =? 46 then
              match digits r with
              | (EmptyString, _) => None
              | (ds, r') => Some (String c ds, r')
              end
            else Some (EmptyString, s2)
        | EmptyString => Some (EmptyString, s2)
        end in
      match frac with
      | None => None
      | Some (f, s3) =>
          let exp :=
            match s3 with
            | String c r =>
                if (code c =? 101) || (code c =? 69) then
                  let '(sg, r1) :=
                    match r with
                    | String d r' =>
                        if (code d =? 43) || (code d =? 45)
                        then (str d, r') else (EmptyString, r)
                    | EmptyString => (EmptyString, r)
                    end in
                  match digits r1 with
                  | (EmptyString, _) => None
                  | (ds, r') => Some (String c (sg +:+ ds), r')
                  end
                else Some (EmptyString, s3)
            | EmptyString => Some (EmptyString, s3)
            end in
          match exp with
          | None => None
          | Some (e, s4) => Some (sign +:+ i +:+ f +:+ e, s4)
          end
      end
  end.

(** The first JSON value of a text and what follows it. *)
Fixpoint value (fuel : nat) (s : string) : option (json * string) :=
  match fuel with
  | O => None
  | S fuel =>
      match skip_space s with
      | EmptyString => None
      | String c r =>
          let n := code c in
          if n =? 123 then
            match skip_space r with
            | String c' r' =>
                if code c' =? 125 then Some (JObject [], r')
                else match members fuel r with
                     | Some (ms, r'') => Some (JObject ms, r'')
                     | None => None
                     end
            | EmptyString => None
            end
          else if n =? 91 then
            match skip_space r with
            | String c' r' =>
                if code c' =? 93 then Some (JArray [], r')
                else match elements fuel r with
                     | Some (xs, r'') => Some (JArray xs, r'')
                     | None => None
                     end
            | EmptyString => None
            end
          else if n =? 34 then
            match literal r with
            | Some (t, r') => Some (JString t, r')
            | None => None
            end
          else if n =? 116 then
            match expect "true" (String c r) with
            | Some r' => Some (JBool true, r')
            | None => None
            end
          else if n =? 102 then
            match expect "false" (String c r) with
            | Some r' => Some (JBool false, r')
            | None => None
            end
          else if n =? 110 then
            match expect "null" (String c r) with
            | Some r' => Some (JNull, r')
            | None => None
            end
          else
            match number (String c r) with
            | Some (lit, r') => Some (JNumber lit, r')
            | None => None
            end
      end
  end
with members (fuel : nat) (s : string)
  : option (list (string * json) * string) :=
  match fuel with
  | O => None
  | S fuel =>
      match skip_space s with
      | String c r =>
          if code c =? 34 then
            match literal r with
            | Some (k, r1) =>
                match skip_space r1 with
                | String c1 r2 =>
                    if code c1 =? 58 then
                      match value fuel r2 with
                      | Some (v, r3) =>
                          match skip_space r3 with
                          | String c3 r4 =>
                              if code c3 =? 44 then
                                match members fuel r4 with
                                | Some (ms, r5) => Some ((k, v) :: ms, r5)
                                | None => None
                                end
                              else if code c3 =? 125 then
                                Some ([(k, v)], r4)
                              else None
                          | EmptyString => None
                          end
                      | None => None
                      end
                    else None
                | EmptyString => None
                end
            | None => None
            end
          else None
      | EmptyString => None
      end
  end
with elements (fuel : nat) (s : string) : option (list json * string) :=
  match fuel with
  | O => None
  | S fuel =>
      match value fuel s with
      | Some (v, r1) =>
          match skip_space r1 with
          | String c r2 =>
              if code c =? 44 then
                match elements fuel r2 with
                | Some (xs, r3) => Some (v :: xs, r3)
                | None => None
                end
              else if code c =? 93 then Some ([v], r2)
              else None
          | EmptyString => None
          end
      | None => None
      end
  end.

Definition enough (s : string) : nat := (2 * String.length s + 2)%nat.

(** encoding/json keeps the last of several members with one key, and
    jsonquery orders the members of an object by key. *)
Fixpoint put (k : string) (v : json) (ms : list (string * json))
  : list (string * json) :=
  match ms with
  | [] => [(k, v)]
  | (k', v') :: ms' =>
      if String.eqb k k' then (k, v) :: ms'
      else if String.ltb k k' then (k, v) :: ms
      else (k', v') :: put k v ms'
  end.

Fixpoint document (j : json) : json :=
  match j with
  | JObject ms =>
      JObject
        ((fix go (ms acc : list (string * json)) : list (string * json) :=
            match ms with
            | [] => acc
            | (k, v) :: ms' => go ms' (put k (document v) acc)
            end) ms [])
  | JArray xs => JArray (map document xs)
  | _ => j
  end.

(** [jsonquery.Parse]: the whole text must be one JSON value. *)
Definition Parse (r : Reader) : result json :=
  match value (enough (pending r)) (pending r) with
  | Some (j, rest) =>
      match skip_space rest with
      | EmptyString => Ok (document j)
      | String _ _ => Err ErrSyntax
      end
  | None => Err ErrSyntax
  end.

(** [Decode] into a [map[string]any]: the first value of the text must be
    an object, or null, which leaves the nil map. *)
Definition Decode (r : Reader) : result (gmap string json) :=
  match value (enough (pending r)) (pending r) with
  | Some (JObject ms, _) =>
      Ok (fold_left (fun m kv => <[fst kv := document (snd kv)]> m) ms ∅)
  | Some (JNull, _) => Ok ∅
  | Some (_, _) => Err ErrUnmarshalType
  | None => Err ErrSyntax
  end.

(** *** DEFLATE, stored blocks *)

Fixpoint take (n : nat) (s : string) : string * string :=
  match n, s with
  | S n', String c r => let '(t, r') := take n' r in (String c t, r')
  | _, _ => (EmptyString, s)
  end.

(** The data, the error that ends it, and the input after the final
    block. *)
Fixpoint inflate (fuel : nat) (s : string)
  : string * option error * string :=
  match fuel with
  | O => (EmptyString, Some notCovered, s)
  | S fuel =>
      match s with
      | EmptyString => (EmptyString, Some ErrUnexpectedEOF, s)
      | String h r =>
          let final := Z.odd (code h) in
          let btype := (code h / 2) mod 4 in
          if btype =? 0 then
            match r with
            | String l0 (String l1 (String n0 (String n1 data))) =>
                let LEN := code l0 + 256 * code l1 in
                let NLEN := code n0 + 256 * code n1 in
                if LEN + NLEN =? 65535 then
                  let '(chunk, rest) := take (Z.to_nat LEN) data in
                  if len chunk <? LEN then
                    (chunk, Some ErrUnexpectedEOF, rest)
                  else if final then (chunk, None, rest)
                  else
                    let '(more, e, rest') := inflate fuel rest in
                    (chunk +:+ more, e, rest')
                else (EmptyString, Some ErrCorrupt, r)
            | _ => (EmptyString, Some ErrUnexpectedEOF, r)
            end
          else if btype =? 3 then (EmptyString, Some ErrCorrupt, r)
          else (EmptyString, Some notCovered, r)
      end
  end.

Definition flate (r : Reader) : Reader :=
  let '(data, e, _) := inflate (S (String.length (pending r))) (pending r) in
  mkReader data e.

(** *** gzip *)

Fixpoint crc_shift (k : nat) (c : Z) : Z :=
  match k with
  | O => c
  | S k' =>
      crc_shift k' (if Z.odd c then Z.lxor (Z.shiftr c 1) 3988292384
                    else Z.shiftr c 1)
  end.

Fixpoint crc_update (c : Z) (s : string) : Z :=
  match s with
  | EmptyString => c
  | String b r => crc_update (crc_shift 8 (Z.lxor c (code b))) r
  end.

Definition crc32 (s : string) : Z :=
  Z.lxor (crc_update 4294967295 s) 4294967295.

Definition le32 (a b c d : ascii) : Z :=
  code a + 256 * (code b + 256 * (code c + 256 * code d)).

(** The ten fixed bytes of a member header; the result is the input after
    them. *)
Definition header (s : string) : result string :=
  match s with
  | EmptyString => Err "EOF"
  | String id1 (String id2 (String cm (String flg (String _ (String _
      (String _ (String _ (String _ (String _ payload))))))))) =>
      if (code id1 =? 31) && (code id2 =? 139) && (code cm =? 8) then
        if code flg =? 0 then Ok payload else Err notCovered
      else Err ErrHeader
  | _ => Err ErrUnexpectedEOF
  end.

(** The members of a gzip stream, from the payload of the first one. *)
Fixpoint gunzip (fuel : nat) (payload : string) : string * option error :=
  match fuel with
  | O => (EmptyString, Some notCovered)
  | S fuel =>
      match inflate (S (String.length payload)) payload with
      | (data, Some e, _) => (data, Some e)
      | (data, None, rest) =>
          match rest with
          | String c0 (String c1 (String c2 (String c3 (String s0
              (String s1 (String s2 (String s3 next))))))) =>
              if (le32 c0 c1 c2 c3 =? crc32 data)
                 && (le32 s0 s1 s2 s3 =? len data mod 4294967296) then
                match next with
                | EmptyString => (data, None)
                | String _ _ =>
                    match header next with
                    | Ok payload' =>
                        let '(more, e) := gunzip fuel payload' in
                        (data +:+ more, e)
                    | Err e => (data, Some e)
                    end
                end
              else (data, Some ErrChecksum)
          | _ => (data, Some ErrUnexpectedEOF)
          end
      end
  end.

Definition gzip (r : Reader) : result Reader :=
  match header (pending r) with
  | Ok payload =>
      let '(data, e) := gunzip (S (String.length payload)) payload in
      Ok (mkReader data e)
  | Err e => Err e
  end.

End Ref.

Definition RefLibs : GoLibs :=
  {| gzip_NewReader := Ref.gzip;
     flate_NewReader := Ref.flate;
     jsonquery_Parse := Ref.Parse;
     json_Decode := Ref.Decode |}.

(** ** Vocabulary of the properties *)

Section Signature.
Context `{libs : GoLibs}.

(** The decoded body of a response with raw body [b] has a field named
    [error] at some depth. *)
Definition ErrorSignature (r : Response) (b : bytes) : Prop :=
  exists ub doc,
    tryDecompressResponse r b = (ub, None) /\
    jsonquery_Parse (bytes_NewReader ub) = Ok doc /\
    HasField "error" doc.

(** The decoded body parses and has no such field. *)
Definition NoErrorField (r : Response) (b : bytes) : Prop :=
  exists ub doc,
    tryDecompressResponse r b = (ub, None) /\
    jsonquery_Parse (bytes_NewReader ub) = Ok doc /\
    ~ HasField "error" doc.

Definition DecompressFails (r : Response) (b : bytes) : Prop :=
  exists ub e, tryDecompressResponse r b = (ub, Some e).

Definition ParseFails (r : Response) (b : bytes) : Prop :=
  exists ub e,
    tryDecompressResponse r b = (ub, None) /\
    jsonquery_Parse (bytes_NewReader ub) = Err e.
End Signature.

(** The class counters of a node. *)
Definition classes (node : ReverseProxyNode) : Z * Z * Z :=
  (Calls2XX node, Calls4XX node, Calls5XX node).

(** The counters hold the numbers of steps of each kind, modulo 2^64. *)
Definition counts (e t2 t4 t5 : Z) (st : NodeState) : Prop :=
  Calls (counters st) = e mod uint64_modulus /\
  Calls2XX (counters st) = t2 mod uint64_modulus /\
  Calls4XX (counters st) = t4 mod uint64_modulus /\
  Calls5XX (counters st) = t5 mod uint64_modulus /\
  0 <= t2 /\ 0 <= t4 /\ 0 <= t5 /\
  Z.of_nat (inflight st) + t2 + t4 + t5 <= e.

Definition bit (b : bool) : Z := if b then 1 else 0.

(** [n] calls one after the other, each answered 200. *)
Fixpoint calls200 (n : nat) : list Step :=
  match n with
  | O => []
  | S n' => Enter :: Leave 200 :: calls200 n'
  end.

(** The lines of the metrics reporter. *)
Definition isMetrics (line : LogLine) : bool :=
  match snd line with
  | MsgMetricsStart | MsgNodeMetrics _ _ _ _ _ => true
  | _ => false
  end.

(** The same response with no [Content-Encoding] header. *)
Definition withoutEncoding (r : Response) : Response :=
  mkResponse (StatusCode r) (delete "Content-Encoding" (Header r)) (Body r)
             (ContentLength r).

(** ** Concrete responses *)
Module Sample.

Definition quoted (s : string) : string :=
  Ref.str Ref.quote +:+ s +:+ Ref.str Ref.quote.

(** A JSON-RPC error reply: the object with the members jsonrpc, id and
    error, the last one an object with code -32005 and a message. *)
Definition rpc_error : bytes :=
  "{" +:+ quoted "jsonrpc" +:+ ":" +:+ quoted "2.0" +:+ ","
      +:+ quoted "id" +:+ ":1,"
      +:+ quoted "error" +:+ ":{" +:+ quoted "code" +:+ ":-32005,"
      +:+ quoted "message" +:+ ":" +:+ quoted "limit exceeded" +:+ "}}".

(** A JSON-RPC result: the object with jsonrpc, id and a string result. *)
Definition rpc_result : bytes :=
  "{" +:+ quoted "jsonrpc" +:+ ":" +:+ quoted "2.0" +:+ ","
      +:+ quoted "id" +:+ ":1,"
      +:+ quoted "result" +:+ ":" +:+ quoted "0x10" +:+ "}".

(** The ten bytes of a gzip header, with no payload after them. *)
Definition gzip_header_only : bytes :=
  Ref.of_codes [31; 139; 8; 0; 0; 0; 0; 0; 0; 255].

(** A gzip member holding, in one stored block, the 26 bytes of the object
    with the single member error, the string limit exceeded. *)
Definition gzip_rpc_error : bytes :=
  Ref.of_codes
    [31; 139; 8; 0; 0; 0; 0; 0; 4; 3;
     1; 26; 0; 229; 255;
     123; 34; 101; 114; 114; 111; 114; 34; 58; 34; 108; 105; 109; 105; 116;
     32; 101; 120; 99; 101; 101; 100; 101; 100; 34; 125;
     30; 50; 166; 136; 26; 0; 0; 0].

Definition plain (statusCode : Z) (body : bytes) : Response :=
  mkResponse statusCode ∅ (bytes_NewReader body) (len body).

Definition encoded (encoding : string) (statusCode : Z) (body : bytes)
  : Response :=
  mkResponse statusCode (Header_Set ∅ "Content-Encoding" encoding)
             (bytes_NewReader body) (len body).

(** A response whose body breaks after [body]. *)
Definition broken (statusCode : Z) (body : bytes) (err : error) : Response :=
  mkResponse statusCode ∅ (mkReader body (Some err)) (-1).

Definition logger : ConsoleLogger := NewConsoleLogger false.

Definition node : ReverseProxyNode := buildNode "https://eth.llamarpc.com".

(** The health probe bodies of the spec. *)
Definition synced : bytes :=
  "{" +:+ quoted "jsonrpc" +:+ ":" +:+ quoted "2.0" +:+ ","
      +:+ quoted "id" +:+ ":1," +:+ quoted "result" +:+ ":false}".
Definition syncing_true : bytes := "{" +:+ quoted "result" +:+ ":true}".
Definition syncing_object : bytes :=
  "{" +:+ quoted "result" +:+ ":{" +:+ quoted "startingBlock" +:+ ":"
      +:+ quoted "0x0" +:+ "}}".

End Sample.

(** ** The rest of the program *)

(** *** [main]: start-up *)

(** The three [logger.Fatalf] calls of [main]; [Fatalf] prints and then
    calls [os.Exit(1)], so nothing after it runs. *)
Inductive FatalMessage :=
| NoNodesSpecified
| HealthProxyOneNode
| CannotParseNodeURL (node : string).

Inductive Startup :=
| Exited (m : FatalMessage)
| Serving (g : Registry).

Section Main.
(** [url.Parse]; a parsed URL is kept as its text. *)
Variable url_Parse : string -> result string.

(** The loop of [main] over [*nodes]. *)
Fixpoint buildNodes (nodes : list string)
  : FatalMessage + list ReverseProxyNode :=
  match nodes with
  | [] => inr []
  | node :: rest =>
      match url_Parse node with
      | Err _ => inl (CannotParseNodeURL node)
      | Ok nodeURL =>
          match buildNodes rest with
          | inl m => inl m
          | inr built => inr (buildNode nodeURL :: built)
          end
      end
  end.

(** [main] up to the registration of the handlers. *)
Definition startup (nodeHealthProxy : bool) (nodes : list string) : Startup :=
  if (length nodes =? 0)%nat then Exited NoNodesSpecified
  else if nodeHealthProxy && (1 <? length nodes)%nat then
    Exited HealthProxyOneNode
  else
    match buildNodes nodes with
    | inl m => Exited m
    | inr built => Serving (mkRegistry built 0)
    end.
End Main.

(** *** The handler of [/] *)

Section Dispatch.
Context `{libs : GoLibs} (logger : ConsoleLogger).

(** [nextNode()] and then [node.Proxy.ServeHTTP]: the transport calls the
    hook of the chosen node once, on the upstream response, when there is
    one ([None]: the upstream gave no response). The hook works on the node
    the registry points to, so its counters change in the registry. [None]
    as a result is the panic of [nextNode]. *)
Definition handleRoot (g : Registry) (upstream : option Response)
  : option (Registry * option Outcome) :=
  match nextNode logger g with
  | None => None
  | Some s =>
      match upstream with
      | None => Some (registry_after s, None)
      | Some r =>
          let o := ModifyResponse logger (selected s) r in
          Some (mkRegistry
                  (<[Z.to_nat (nextIndex s) := node_after o]>
                     (ReverseProxyNodes (registry_after s)))
                  (nodesIndex (registry_after s)),
                Some o)
      end
  end.

(** Requests handled one after the other. *)
Fixpoint handleAll (g : Registry) (upstreams : list (option Response))
  : option Registry :=
  match upstreams with
  | [] => Some g
  | upstream :: rest =>
      match handleRoot g upstream with
      | Some (g', _) => handleAll g' rest
      | None => None
      end
  end.
End Dispatch.

(** How often [j] occurs in a list of indices. *)
Fixpoint occurrences (j : Z) (l : list Z) : Z :=
  match l with
  | [] => 0
  | i :: l' => (if i =? j then 1 else 0) + occurrences j l'
  end.

(** *** [buildNode]: the director *)

(** The fields of [http.Request] the director of [buildNode] writes. *)
Record Request := mkRequest {
  Path : string;
  RequestHeader : gmap string (list string);
  Host : string
}.

(** [strings.HasSuffix(s, suffix)] *)
Definition strings_HasSuffix (s suffix : string) : bool :=
  let n := String.length s in
  let m := String.length suffix in
  (m <=? n)%nat && String.eqb (substring (n - m) m s) suffix.

(** The director set by [buildNode]: the director of
    [httputil.NewSingleHostReverseProxy] first, then the three statements of
    the program. [target_Host] is [target.Host]. *)
Definition Director (originDirector : Request -> Request)
  (target_Host : string) (req : Request) : Request :=
  let req := originDirector req in
  let req :=
    if strings_HasSuffix (Path req) "/" then
      mkRequest (substring 0 (String.length (Path req) - 1) (Path req))
                (RequestHeader req) (Host req)
    else req in
  mkRequest (Path req) (<["X-Forwarded-For" := []]> (RequestHeader req))
            target_Host.

(** *** The first [ModifyResponse] *)

(** [ModifyResponse] as it was before the inspection of the body was
    added: the call is counted and classified by [r.StatusCode]. *)
Definition ModifyResponse0 (node : ReverseProxyNode) (r : Response)
  : ReverseProxyNode :=
  classify (StatusCode r) (countCall node).

(** A stand-in for [url.Parse] on the addresses used below: as [url.Parse]
    does first, it rejects a text with an ASCII control character. *)
Module RefURL.

Fixpoint hasControl (s : string) : bool :=
  match s with
  | EmptyString => false
  | String c r =>
      (Ref.code c <? 32) || (Ref.code c =? 127) || hasControl r
  end.

Definition Parse (s : string) : result string :=
  if hasControl s then Err "net/url: invalid control character in URL"
  else Ok s.

End RefURL.

(** * Properties *)

(** ** The error signature *)

Lemma FindOne_object_cons name k v ms :
  FindOne name (JObject ((k, v) :: ms)) =
  if String.eqb k name then Some v
  else match FindOne name v with
       | Some n => Some n
       | None => FindOne name (JObject ms)
       end.
Proof. reflexivity. Qed.

Lemma FindOne_array_cons name x xs :
  FindOne name (JArray (x :: xs)) =
  match FindOne name x with
  | Some n => Some n
  | None => FindOne name (JArray xs)
  end.
Proof. reflexivity. Qed.

Lemma FindOne_sound name doc :
  forall n, FindOne name doc = Some n -> HasField name doc.
Proof.
  induction doc as [| | | |xs IH|ms IH] using json_nested_ind;
    try discriminate.
  - induction IH as [|x xs Hx _ IHxs]; intros n Hn; [discriminate|].
    rewrite FindOne_array_cons in Hn.
    destruct (FindOne name x) as [m|] eqn:Ex.
    + apply HasField_item with x; [left; reflexivity | eauto].
    + specialize (IHxs n Hn). inversion IHxs as [| |? y Hin Hy]; subst.
      apply HasField_item with y; [right; exact Hin | exact Hy].
  - induction IH as [|[k v] ms Hv _ IHms]; intros n Hn; [discriminate|].
    rewrite FindOne_object_cons in Hn. simpl in Hv.
    destruct (String.eqb k name) eqn:Ek.
    + apply String.eqb_eq in Ek. subst k.
      apply HasField_here with v. left; reflexivity.
    + destruct (FindOne name v) as [m|] eqn:Ev.
      * apply HasField_member with k v; [left; reflexivity | eauto].
      * specialize (IHms n Hn).
        inversion IHms as [? w Hin | ? k' w Hin Hw |]; subst.
        -- apply HasField_here with w. right; exact Hin.
        -- apply HasField_member with k' w; [right; exact Hin | exact Hw].
Qed.

Lemma FindOne_complete name doc :
  HasField name doc -> exists n, FindOne name doc = Some n.
Proof.
  induction 1 as [ms v Hin | ms k v Hin _ [n Hn] | xs x Hin _ [n Hn]].
  - induction ms as [|[k' v'] ms IHms]; [destruct Hin|].
    rewrite FindOne_object_cons.
    destruct (String.eqb k' name) eqn:Ek; [eauto|].
    destruct (FindOne name v'); [eauto|].
    destruct Hin as [Heq|Hin]; [|auto].
    inversion Heq; subst. rewrite String.eqb_refl in Ek. discriminate.
  - induction ms as [|[k' v'] ms IHms]; [destruct Hin|].
    rewrite FindOne_object_cons.
    destruct (String.eqb k' name); [eauto|].
    destruct (FindOne name v') eqn:Ev; [eauto|].
    destruct Hin as [Heq|Hin]; [|auto].
    inversion Heq; subst. congruence.
  - induction xs as [|x' xs IHxs]; [destruct Hin|].
    rewrite FindOne_array_cons.
    destruct (FindOne name x') eqn:Ex; [eauto|].
    destruct Hin as [Heq|Hin]; [|auto].
    subst. congruence.
Qed.

(** The search of [ModifyResponse] finds a node exactly when the document has
    a field of that name at some depth. *)
Lemma FindOne_HasField name doc :
  (exists n, FindOne name doc = Some n) <-> HasField name doc.
Proof.
  split; [intros [n Hn]; eauto using FindOne_sound | apply FindOne_complete].
Qed.

(** ** [ModifyResponse] *)

Section InspectorFacts.
Context `{libs : GoLibs} (logger : ConsoleLogger).

(** [r.StatusCode] is read, never written. *)
Lemma ModifyResponse_StatusCode node r :
  StatusCode (resp_after (ModifyResponse logger node r)) = StatusCode r.
Proof.
  unfold ModifyResponse, io_ReadAll.
  destruct (fault (Body r)); [reflexivity|].
  destruct (inspect _ _ _ _); reflexivity.
Qed.

Lemma ModifyResponse_read_ok node r :
  fault (Body r) = None ->
  let b := pending (Body r) in
  ModifyResponse logger node r =
  mkOutcome
    (classify (fst (inspect logger (countCall node) r b)) (countCall node))
    (mkResponse (StatusCode r)
                (Header_Set (Header r) "Content-Length" (pretty (len b)))
                (bytes_NewReader b) (len b))
    (snd (inspect logger (countCall node) r b)) None.
Proof.
  intros Hf b. unfold ModifyResponse, io_ReadAll. rewrite Hf.
  fold b. destruct (inspect _ _ _ _); reflexivity.
Qed.

Lemma ModifyResponse_node node r :
  node_after (ModifyResponse logger node r) =
  classify (finalStatus logger node r) (countCall node).
Proof.
  unfold ModifyResponse, finalStatus, io_ReadAll.
  destruct (fault (Body r)); [reflexivity|].
  destruct (inspect _ _ _ _); reflexivity.
Qed.

Lemma inspect_signature node r b :
  ErrorSignature r b ->
  exists content,
    inspect logger node r b =
    (429, [(WARN, MsgDetectError (URL node) content)]).
Proof.
  intros (ub & doc & Hd & Hp & Hf). unfold inspect. rewrite Hd, Hp.
  apply FindOne_complete in Hf as [n Hn]. rewrite Hn. eauto.
Qed.

Lemma inspect_no_signature node r b :
  ~ ErrorSignature r b ->
  fst (inspect logger node r b) = StatusCode r /\
  forall content,
    ~ In (WARN, MsgDetectError (URL node) content)
         (snd (inspect logger node r b)).
Proof.
  intros Hno. unfold inspect.
  destruct (tryDecompressResponse r b) as [ub [e|]] eqn:Hd;
    [split; [reflexivity | intros c []]|].
  destruct (jsonquery_Parse (bytes_NewReader ub)) as [doc|e] eqn:Hp.
  - destruct (FindOne "error" doc) as [n|] eqn:Hn.
    + exfalso. apply Hno. exists ub, doc.
      eauto using FindOne_sound.
    + split; [reflexivity | intros c []].
  - split; [reflexivity|]. intros c [Heq|[]]. discriminate.
Qed.

(** A flagged response is handed on with the status it came with: the 429
    stays in the local [statusCode]. *)
Lemma flagged_response_keeps_status node r :
  fault (Body r) = None ->
  ErrorSignature r (pending (Body r)) ->
  let o := ModifyResponse logger node r in
  returned o = None /\
  delivered o = (StatusCode r, pending (Body r)) /\
  finalStatus logger node r = 429 /\
  exists content, logged o = [(WARN, MsgDetectError (URL node) content)].
Proof.
  intros Hf Hs o. unfold o.
  rewrite (ModifyResponse_read_ok node r Hf).
  unfold delivered, finalStatus, io_ReadAll. rewrite Hf. simpl.
  destruct (inspect_signature (countCall node) r _ Hs) as [c Hc].
  rewrite Hc. repeat split. exists c. reflexivity.
Qed.

Lemma ModifyResponse_no_metrics node r :
  existsb isMetrics (logged (ModifyResponse logger node r)) = false.
Proof.
  unfold ModifyResponse, io_ReadAll.
  destruct (fault (Body r)); [reflexivity|].
  unfold inspect.
  destruct (tryDecompressResponse r _) as [ub [e|]]; [reflexivity|].
  destruct (jsonquery_Parse _) as [doc|e]; [|reflexivity].
  destruct (FindOne _ doc); reflexivity.
Qed.

Lemma probe_no_metrics up :
  existsb isMetrics (reply_log (probe logger up)) = false.
Proof.
  unfold probe, io_ReadAll. destruct up as [err|err|body]; try reflexivity.
  destruct (fault body); [reflexivity|].
  destruct (json_Decode _) as [jsonResp|err]; [|reflexivity].
  destruct (jsonResp !! "result") as [[| [|] | | | |]|]; reflexivity.
Qed.

Lemma unflagged_no_signature r b :
  NoErrorField r b \/ DecompressFails r b \/ ParseFails r b ->
  ~ ErrorSignature r b.
Proof.
  intros H (ub & doc & Hd & Hp & Hf).
  destruct H as [(ub' & doc' & Hd' & Hp' & Hn)
                |[(ub' & e & Hd') | (ub' & e & Hd' & Hp')]];
    rewrite Hd in Hd'; inversion Hd'; subst; try congruence.
Qed.

Lemma classify_Calls statusCode node :
  Calls (classify statusCode node) = Calls node.
Proof.
  unfold classify.
  repeat match goal with |- context [if ?c then _ else _] => destruct c end;
    reflexivity.
Qed.

Lemma classify_2XX statusCode node :
  200 <= statusCode < 300 ->
  classes (classify statusCode node) =
  (atomic_AddUint64 (Calls2XX node) 1, Calls4XX node, Calls5XX node).
Proof.
  intros H. unfold classify.
  replace ((200 <=? statusCode) && (statusCode <? 300)) with true by lia.
  reflexivity.
Qed.

Lemma classify_4XX statusCode node :
  400 <= statusCode < 500 ->
  classes (classify statusCode node) =
  (Calls2XX node, atomic_AddUint64 (Calls4XX node) 1, Calls5XX node).
Proof.
  intros H. unfold classify.
  replace ((200 <=? statusCode) && (statusCode <? 300)) with false by lia.
  replace ((400 <=? statusCode) && (statusCode <? 500)) with true by lia.
  reflexivity.
Qed.

Lemma classify_5XX statusCode node :
  500 <= statusCode < 600 ->
  classes (classify statusCode node) =
  (Calls2XX node, Calls4XX node, atomic_AddUint64 (Calls5XX node) 1).
Proof.
  intros H. unfold classify.
  replace ((200 <=? statusCode) && (statusCode <? 300)) with false by lia.
  replace ((400 <=? statusCode) && (statusCode <? 500)) with false by lia.
  replace ((500 <=? statusCode) && (statusCode <? 600)) with true by lia.
  reflexivity.
Qed.

Lemma classify_other statusCode node :
  ~ 200 <= statusCode < 300 ->
  ~ 400 <= statusCode < 500 ->
  ~ 500 <= statusCode < 600 ->
  classify statusCode node = node.
Proof.
  intros H2 H4 H5. unfold classify.
  replace ((200 <=? statusCode) && (statusCode <? 300)) with false by lia.
  replace ((400 <=? statusCode) && (statusCode <? 500)) with false by lia.
  replace ((500 <=? statusCode) && (statusCode <? 600)) with false by lia.
  reflexivity.
Qed.

End InspectorFacts.

Section InspectorClaims.
Context `{libs : GoLibs} (logger : ConsoleLogger).

(** C4. Classification uses the status left in the local [statusCode] when
    the deferred closure runs, which is 429 when the decoded body carries an
    error field and the upstream status otherwise. For every response whose
    body was read, [Calls] is incremented by one, and exactly one of
    [Calls2XX], [Calls4XX], [Calls5XX] is incremented when that final status is
    in its range (the 4xx counter after an override), none when it is in no
    range. *)
Theorem C4_counters_follow_final_status node r :
  fault (Body r) = None ->
  let b := pending (Body r) in
  let after := node_after (ModifyResponse logger node r) in
  let final := finalStatus logger node r in
  (ErrorSignature r b -> final = 429) /\
  (~ ErrorSignature r b -> final = StatusCode r) /\
  Calls after = atomic_AddUint64 (Calls node) 1 /\
  (200 <= final < 300 ->
   classes after =
   (atomic_AddUint64 (Calls2XX node) 1, Calls4XX node, Calls5XX node)) /\
  (400 <= final < 500 ->
   classes after =
   (Calls2XX node, atomic_AddUint64 (Calls4XX node) 1, Calls5XX node)) /\
  (500 <= final < 600 ->
   classes after =
   (Calls2XX node, Calls4XX node, atomic_AddUint64 (Calls5XX node) 1)) /\
  (~ 200 <= final < 300 -> ~ 400 <= final < 500 -> ~ 500 <= final < 600 ->
   classes after = classes node) /\
  (ErrorSignature r b ->
   classes after =
   (Calls2XX node, atomic_AddUint64 (Calls4XX node) 1, Calls5XX node)).
Proof.
  intros Hf b after final.
  assert (Hsig : ErrorSignature r b -> final = 429).
  { intros Hs. unfold final, finalStatus, io_ReadAll. rewrite Hf.
    destruct (inspect_signature logger (countCall node) r _ Hs) as [c Hc].
    fold b. rewrite Hc. reflexivity. }
  assert (Hafter : after = classify final (countCall node))
    by apply ModifyResponse_node.
  repeat split.
  - exact Hsig.
  - intros Hno. unfold final, finalStatus, io_ReadAll. rewrite Hf.
    apply (inspect_no_signature logger (countCall node) r _ Hno).
  - rewrite Hafter, classify_Calls. reflexivity.
  - intros H. rewrite Hafter. apply (classify_2XX _ (countCall node) H).
  - intros H. rewrite Hafter. apply (classify_4XX _ (countCall node) H).
  - intros H. rewrite Hafter. apply (classify_5XX _ (countCall node) H).
  - intros H2 H4 H5. rewrite Hafter, classify_other by assumption.
    reflexivity.
  - intros Hs. rewrite Hafter, (Hsig Hs).
    apply (classify_4XX 429 (countCall node)). lia.
Qed.

(** C6. A response whose decoded body has no error field, or whose
    decompression or JSON parsing fails, reaches the client with the upstream
    status and the raw bytes received; no override is recorded for it. *)
Theorem C6_unflagged_response_unchanged node r :
  fault (Body r) = None ->
  let b := pending (Body r) in
  NoErrorField r b \/ DecompressFails r b \/ ParseFails r b ->
  let o := ModifyResponse logger node r in
  returned o = None /\
  delivered o = (StatusCode r, b) /\
  finalStatus logger node r = StatusCode r.
Proof.
  intros Hf b Hun o. apply unflagged_no_signature in Hun.
  unfold o. rewrite (ModifyResponse_read_ok logger node r Hf).
  unfold delivered, finalStatus, io_ReadAll. rewrite Hf. simpl.
  repeat split.
  apply (inspect_no_signature logger (countCall node) r _ Hun).
Qed.

(** C10. When reading the upstream body fails, [ModifyResponse] returns that
    error: nothing is inspected or logged, the body is not restored and the
    length fields are left alone. [Calls] has been incremented all the same,
    and the deferred closure still increments the class counter of the
    upstream status: [Calls2XX], [Calls4XX] or [Calls5XX] by one when that
    status is in its range, none when it is in no range. *)
Theorem C10_read_failure_still_counted node r err :
  fault (Body r) = Some err ->
  let o := ModifyResponse logger node r in
  let after := node_after o in
  let upstream := StatusCode r in
  returned o = Some err /\
  logged o = [] /\
  Body (resp_after o) = snd (io_ReadAll (Body r)) /\
  Header (resp_after o) = Header r /\
  ContentLength (resp_after o) = ContentLength r /\
  Calls after = atomic_AddUint64 (Calls node) 1 /\
  (200 <= upstream < 300 ->
   classes after =
   (atomic_AddUint64 (Calls2XX node) 1, Calls4XX node, Calls5XX node)) /\
  (400 <= upstream < 500 ->
   classes after =
   (Calls2XX node, atomic_AddUint64 (Calls4XX node) 1, Calls5XX node)) /\
  (500 <= upstream < 600 ->
   classes after =
   (Calls2XX node, Calls4XX node, atomic_AddUint64 (Calls5XX node) 1)) /\
  (~ 200 <= upstream < 300 -> ~ 400 <= upstream < 500 ->
   ~ 500 <= upstream < 600 ->
   classes after = classes node).
Proof.
  intros Hf o after upstream.
  assert (Hafter : after = classify upstream (countCall node)).
  { unfold after, o, ModifyResponse, io_ReadAll. rewrite Hf. reflexivity. }
  unfold o, ModifyResponse, io_ReadAll. rewrite Hf. simpl.
  split; [reflexivity|]. split; [reflexivity|]. split; [reflexivity|].
  split; [reflexivity|]. split; [reflexivity|].
  rewrite Hafter. split; [rewrite classify_Calls; reflexivity|].
  split; [intros H; apply (classify_2XX _ (countCall node) H)|].
  split; [intros H; apply (classify_4XX _ (countCall node) H)|].
  split; [intros H; apply (classify_5XX _ (countCall node) H)|].
  intros H2 H4 H5. rewrite classify_other by assumption. reflexivity.
Qed.

(** C2, amended. When the body of a deflate response fails to decode,
    [tryDecompressResponse] returns the error and [ModifyResponse] drops it:
    the JSON inspection and the override are skipped, nothing is logged, the
    hook returns nil, and the client gets the upstream status and the raw
    bytes. The counting is not skipped: [Calls] is incremented by one, and
    so is the class counter of the upstream status, [Calls2XX], [Calls4XX]
    or [Calls5XX], when that status is in its range; none when it is in no
    range. *)
Theorem C2_deflate_failure_swallowed node r e :
  fault (Body r) = None ->
  Header_Get (Header r) "Content-Encoding" = "deflate" ->
  let b := pending (Body r) in
  fault (flate_NewReader (bytes_NewReader b)) = Some e ->
  let o := ModifyResponse logger node r in
  let after := node_after o in
  let upstream := StatusCode r in
  snd (tryDecompressResponse r b) = Some e /\
  returned o = None /\
  logged o = [] /\
  delivered o = (upstream, b) /\
  finalStatus logger node r = upstream /\
  Calls after = atomic_AddUint64 (Calls node) 1 /\
  (200 <= upstream < 300 ->
   classes after =
   (atomic_AddUint64 (Calls2XX node) 1, Calls4XX node, Calls5XX node)) /\
  (400 <= upstream < 500 ->
   classes after =
   (Calls2XX node, atomic_AddUint64 (Calls4XX node) 1, Calls5XX node)) /\
  (500 <= upstream < 600 ->
   classes after =
   (Calls2XX node, Calls4XX node, atomic_AddUint64 (Calls5XX node) 1)) /\
  (~ 200 <= upstream < 300 -> ~ 400 <= upstream < 500 ->
   ~ 500 <= upstream < 600 ->
   classes after = classes node).
Proof.
  intros Hf Henc b He o after upstream.
  assert (Hd : tryDecompressResponse r b =
               (pending (flate_NewReader (bytes_NewReader b)), Some e)).
  { unfold tryDecompressResponse, io_ReadAll. rewrite Henc. simpl.
    rewrite He. reflexivity. }
  assert (Hfinal : finalStatus logger node r = upstream).
  { unfold finalStatus, io_ReadAll. rewrite Hf. fold b.
    unfold inspect. rewrite Hd. reflexivity. }
  assert (Hafter : after = classify upstream (countCall node)).
  { unfold after, o. rewrite ModifyResponse_node, Hfinal. reflexivity. }
  unfold o. rewrite (ModifyResponse_read_ok logger node r Hf). fold b.
  unfold inspect. rewrite Hd.
  split; [reflexivity|]. split; [reflexivity|]. split; [reflexivity|].
  split; [reflexivity|]. split; [exact Hfinal|].
  rewrite Hafter. split; [rewrite classify_Calls; reflexivity|].
  split; [intros H; apply (classify_2XX _ (countCall node) H)|].
  split; [intros H; apply (classify_4XX _ (countCall node) H)|].
  split; [intros H; apply (classify_5XX _ (countCall node) H)|].
  intros H2 H4 H5. rewrite classify_other by assumption. reflexivity.
Qed.

(** C8, amended. When [gzip.NewReader] rejects the body of a gzip response,
    decoding is a no-op and the response is handled as the same response
    without its Content-Encoding header would be. When the reader is built
    and reading the payload fails, [tryDecompressResponse] returns that
    error and the JSON inspection is skipped; the response is still handed
    on with the upstream status and the raw bytes. *)
Theorem C8_gzip_failures node r :
  fault (Body r) = None ->
  Header_Get (Header r) "Content-Encoding" = "gzip" ->
  let b := pending (Body r) in
  let o := ModifyResponse logger node r in
  let o' := ModifyResponse logger node (withoutEncoding r) in
  (forall e,
     gzip_NewReader (bytes_NewReader b) = Err e ->
     tryDecompressResponse r b = (b, None) /\
     node_after o = node_after o' /\
     logged o = logged o' /\
     returned o = None /\
     delivered o = delivered o') /\
  (forall ub e,
     gzip_NewReader (bytes_NewReader b) = Ok ub ->
     fault ub = Some e ->
     tryDecompressResponse r b = (pending ub, Some e) /\
     logged o = [] /\
     returned o = None /\
     delivered o = (StatusCode r, b)).
Proof.
  intros Hf Henc b o o'.
  assert (Hf' : fault (Body (withoutEncoding r)) = None) by exact Hf.
  assert (Hraw : tryDecompressResponse (withoutEncoding r) b = (b, None)).
  { unfold tryDecompressResponse, withoutEncoding, Header_Get. simpl.
    rewrite lookup_delete_eq. reflexivity. }
  unfold o, o'.
  rewrite (ModifyResponse_read_ok logger node r Hf),
          (ModifyResponse_read_ok logger node _ Hf').
  change (pending (Body (withoutEncoding r))) with b. fold b.
  split.
  - intros e He.
    assert (Hd : tryDecompressResponse r b = (b, None)).
    { unfold tryDecompressResponse. rewrite Henc. simpl. rewrite He.
      reflexivity. }
    assert (Hi : inspect logger (countCall node) r b =
                 inspect logger (countCall node) (withoutEncoding r) b).
    { unfold inspect. rewrite Hd, Hraw. reflexivity. }
    rewrite Hi. repeat split. exact Hd.
  - intros ub e Hub He.
    assert (Hd : tryDecompressResponse r b = (pending ub, Some e)).
    { unfold tryDecompressResponse, io_ReadAll. rewrite Henc. simpl.
      rewrite Hub. simpl. rewrite He. reflexivity. }
    unfold inspect. rewrite Hd. repeat split.
Qed.

End InspectorClaims.

(** ** [ModifyResponse] on concrete responses *)

Lemma sample_rpc_error_signature :
  ErrorSignature (libs := RefLibs) (Sample.plain 200 Sample.rpc_error)
                 Sample.rpc_error.
Proof.
  eexists _, _. split; [reflexivity|]. split; [vm_compute; reflexivity|].
  eapply FindOne_sound. vm_compute. reflexivity.
Qed.

Lemma sample_rpc_result_clean :
  NoErrorField (libs := RefLibs) (Sample.plain 200 Sample.rpc_result)
               Sample.rpc_result.
Proof.
  eexists _, _. split; [reflexivity|]. split; [vm_compute; reflexivity|].
  intros H. apply FindOne_complete in H as [n Hn]. vm_compute in Hn.
  discriminate.
Qed.

(** A gzip reply is inspected after decoding: the error field inside the
    compressed body is found, and the client still gets the compressed bytes
    with the upstream status. *)
Lemma gzip_error_body_inspected :
  let r := Sample.encoded "gzip" 200 Sample.gzip_rpc_error in
  let o := ModifyResponse (libs := RefLibs) Sample.logger Sample.node r in
  tryDecompressResponse (libs := RefLibs) r Sample.gzip_rpc_error =
    ("{" +:+ Sample.quoted "error" +:+ ":" +:+ Sample.quoted "limit exceeded"
         +:+ "}", None) /\
  logged o = [(WARN, MsgDetectError (URL Sample.node)
                                   (JString "limit exceeded"))] /\
  delivered o = (200, Sample.gzip_rpc_error) /\
  classes (node_after o) = (0, 1, 0).
Proof. vm_compute. repeat split. Qed.

(** C1 (code defect). An upstream reply 200 whose JSON body has an error
    field: the hook returns nil and the client gets the raw bytes, but with
    status 200, not 429. The 429 only reaches the local [statusCode], hence
    the counters: the call is counted as 4xx. *)
Theorem C1_error_body_keeps_upstream_status :
  let r := Sample.plain 200 Sample.rpc_error in
  let o := ModifyResponse (libs := RefLibs) Sample.logger Sample.node r in
  ErrorSignature (libs := RefLibs) r Sample.rpc_error /\
  returned o = None /\
  delivered o = (200, Sample.rpc_error) /\
  fst (delivered o) <> 429 /\
  finalStatus (libs := RefLibs) Sample.logger Sample.node r = 429 /\
  Calls (node_after o) = 1 /\
  classes (node_after o) = (0, 1, 0).
Proof.
  split; [exact sample_rpc_error_signature|].
  vm_compute. repeat split; discriminate.
Qed.

Lemma C4_counters_follow_final_status_witness :
  let r := Sample.plain 200 Sample.rpc_error in
  let after :=
    node_after (ModifyResponse (libs := RefLibs) Sample.logger Sample.node r) in
  finalStatus (libs := RefLibs) Sample.logger Sample.node r = 429 /\
  Calls after = 1 /\
  classes after = (0, 1, 0).
Proof.
  intros r after.
  destruct (C4_counters_follow_final_status (libs := RefLibs) Sample.logger
              Sample.node r eq_refl)
    as (Hfinal & _ & Hcalls & _ & _ & _ & _ & Hclasses).
  split; [exact (Hfinal sample_rpc_error_signature)|].
  split; [exact Hcalls|].
  exact (Hclasses sample_rpc_error_signature).
Defined.

Lemma C6_unflagged_response_unchanged_witness :
  let r := Sample.plain 200 Sample.rpc_result in
  let o := ModifyResponse (libs := RefLibs) Sample.logger Sample.node r in
  returned o = None /\
  delivered o = (200, Sample.rpc_result) /\
  finalStatus (libs := RefLibs) Sample.logger Sample.node r = 200.
Proof.
  intros r o.
  exact (C6_unflagged_response_unchanged (libs := RefLibs) Sample.logger
           Sample.node r eq_refl (or_introl sample_rpc_result_clean)).
Defined.

Lemma C10_read_failure_still_counted_witness :
  let r := Sample.broken 404 "{" "connection reset by peer" in
  let o := ModifyResponse (libs := RefLibs) Sample.logger Sample.node r in
  returned o = Some "connection reset by peer" /\
  logged o = [] /\
  Body (resp_after o) = snd (io_ReadAll (Body r)) /\
  Header (resp_after o) = Header r /\
  ContentLength (resp_after o) = ContentLength r /\
  Calls Sample.node = 0 /\
  classes Sample.node = (0, 0, 0) /\
  Calls (node_after o) = 1 /\
  classes (node_after o) = (0, 1, 0).
Proof.
  intros r o.
  destruct (C10_read_failure_still_counted (libs := RefLibs) Sample.logger
              Sample.node r "connection reset by peer" eq_refl)
    as (Hret & Hlog & Hbody & Hhdr & Hlen & Hcalls & _ & H4XX & _).
  split; [exact Hret|]. split; [exact Hlog|]. split; [exact Hbody|].
  split; [exact Hhdr|]. split; [exact Hlen|].
  split; [reflexivity|]. split; [reflexivity|].
  split; [exact Hcalls|].
  exact (H4XX ltac:(vm_compute; split; congruence)).
Defined.

(** C2 fails. A deflate response with status 200 and an empty body: decoding
    fails with an unexpected EOF, yet nothing is logged, the hook returns
    nil, and the classification is not skipped: the call is counted, as
    2xx. *)
Lemma C2_counterexample :
  let r := Sample.encoded "deflate" 200 EmptyString in
  let o := ModifyResponse (libs := RefLibs) Sample.logger Sample.node r in
  Header_Get (Header r) "Content-Encoding" = "deflate" /\
  tryDecompressResponse (libs := RefLibs) r EmptyString =
    (EmptyString, Some Ref.ErrUnexpectedEOF) /\
  logged o = [] /\
  returned o = None /\
  Calls (node_after o) = 1 /\
  classes Sample.node = (0, 0, 0) /\
  classes (node_after o) = (1, 0, 0).
Proof. vm_compute. repeat split. Qed.

Lemma C2_deflate_failure_swallowed_witness :
  let r := Sample.encoded "deflate" 503 EmptyString in
  let o := ModifyResponse (libs := RefLibs) Sample.logger Sample.node r in
  snd (tryDecompressResponse (libs := RefLibs) r EmptyString) =
    Some Ref.ErrUnexpectedEOF /\
  returned o = None /\
  logged o = [] /\
  delivered o = (503, EmptyString) /\
  Calls Sample.node = 0 /\
  classes Sample.node = (0, 0, 0) /\
  Calls (node_after o) = 1 /\
  classes (node_after o) = (0, 0, 1).
Proof.
  intros r o.
  destruct (C2_deflate_failure_swallowed (libs := RefLibs) Sample.logger
              Sample.node r Ref.ErrUnexpectedEOF eq_refl
              ltac:(vm_compute; reflexivity) ltac:(vm_compute; reflexivity))
    as (Hdec & Hret & Hlog & Hdel & _ & Hcalls & _ & _ & H5XX & _).
  split; [exact Hdec|]. split; [exact Hret|]. split; [exact Hlog|].
  split; [exact Hdel|]. split; [reflexivity|]. split; [reflexivity|].
  split; [exact Hcalls|].
  exact (H5XX ltac:(vm_compute; split; congruence)).
Defined.

(** C8 fails. A gzip response whose body is a well-formed gzip header with
    nothing after it: the reader is built, reading it fails, and
    [tryDecompressResponse] returns the error. The raw bytes are not
    inspected: without the Content-Encoding header they would be parsed, and
    the parse failure logged. *)
Lemma C8_counterexample :
  let r := Sample.encoded "gzip" 200 Sample.gzip_header_only in
  let o := ModifyResponse (libs := RefLibs) Sample.logger Sample.node r in
  let o' :=
    ModifyResponse (libs := RefLibs) Sample.logger Sample.node
                   (withoutEncoding r) in
  Header_Get (Header r) "Content-Encoding" = "gzip" /\
  tryDecompressResponse (libs := RefLibs) r Sample.gzip_header_only =
    (EmptyString, Some Ref.ErrUnexpectedEOF) /\
  logged o = [] /\
  logged o' = [(WARN, MsgParseError (URL Sample.node) Ref.ErrSyntax)] /\
  logged o <> logged o'.
Proof. vm_compute. repeat split. discriminate. Qed.

Lemma C8_gzip_failures_witness :
  (let r := Sample.encoded "gzip" 200 Sample.rpc_error in
   let o := ModifyResponse (libs := RefLibs) Sample.logger Sample.node r in
   let o' :=
     ModifyResponse (libs := RefLibs) Sample.logger Sample.node
                    (withoutEncoding r) in
   tryDecompressResponse (libs := RefLibs) r Sample.rpc_error =
     (Sample.rpc_error, None) /\
   node_after o = node_after o' /\
   logged o = logged o' /\
   returned o = None /\
   delivered o = delivered o') /\
  (let r := Sample.encoded "gzip" 200 Sample.gzip_header_only in
   let o := ModifyResponse (libs := RefLibs) Sample.logger Sample.node r in
   tryDecompressResponse (libs := RefLibs) r Sample.gzip_header_only =
     (EmptyString, Some Ref.ErrUnexpectedEOF) /\
   logged o = [] /\
   returned o = None /\
   delivered o = (200, Sample.gzip_header_only)).
Proof.
  split.
  - intros r o o'.
    refine (proj1 (C8_gzip_failures (libs := RefLibs) Sample.logger
                     Sample.node r eq_refl _) Ref.ErrHeader _).
    + vm_compute. reflexivity.
    + vm_compute. reflexivity.
  - intros r o.
    refine (proj2 (C8_gzip_failures (libs := RefLibs) Sample.logger
                     Sample.node r eq_refl _)
              (mkReader EmptyString (Some Ref.ErrUnexpectedEOF))
              Ref.ErrUnexpectedEOF _ eq_refl).
    + vm_compute. reflexivity.
    + vm_compute. reflexivity.
Defined.

(** ** The counters *)

Lemma uint64_modulus_eq : uint64_modulus = 18446744073709551616.
Proof. reflexivity. Qed.

Lemma atomic_AddUint64_no_wrap a :
  0 <= a < uint64_modulus - 1 -> atomic_AddUint64 a 1 = a + 1.
Proof.
  intros H. unfold atomic_AddUint64. apply Z.mod_small. lia.
Qed.

Lemma atomic_AddUint64_mod a n :
  atomic_AddUint64 (a mod uint64_modulus) n = (a + n) mod uint64_modulus.
Proof. unfold atomic_AddUint64. apply Zplus_mod_idemp_l. Qed.

(** A call of [ModifyResponse] is one [Enter] and one [Leave]. *)
Lemma ModifyResponse_steps `{libs : GoLibs} logger node r :
  run [Enter; Leave (finalStatus logger node r)] (mkNodeState node O) =
  Some (mkNodeState (node_after (ModifyResponse logger node r)) O).
Proof. rewrite ModifyResponse_node. reflexivity. Qed.

Lemma tally_cons p s steps : tally p (s :: steps) = bit (p s) + tally p steps.
Proof. reflexivity. Qed.

Lemma tally_app p l1 l2 : tally p (l1 ++ l2) = tally p l1 + tally p l2.
Proof.
  induction l1 as [|s l1 IH]; [reflexivity|].
  change ((s :: l1) ++ l2) with (s :: (l1 ++ l2)).
  rewrite !tally_cons, IH. lia.
Qed.

Lemma tally_nonneg p steps : 0 <= tally p steps.
Proof.
  induction steps as [|s steps IH]; [reflexivity|].
  rewrite tally_cons. unfold bit. destruct (p s); lia.
Qed.

Lemma step_counts s st st' e t2 t4 t5 :
  counts e t2 t4 t5 st ->
  step s st = Some st' ->
  counts (e + bit (isEnter s)) (t2 + bit (in2XX s)) (t4 + bit (in4XX s))
         (t5 + bit (in5XX s)) st'.
Proof.
  intros (He & H2 & H4 & H5 & P2 & P4 & P5 & Hle) Hs.
  destruct s as [|c]; simpl in Hs.
  - inversion Hs; subst; clear Hs. unfold counts; simpl.
    rewrite He, atomic_AddUint64_mod, !Z.add_0_r.
    repeat split; try assumption; lia.
  - destruct (inflight st) as [|n] eqn:Hn; [discriminate|].
    inversion Hs; subst; clear Hs. unfold counts, classify; simpl.
    destruct ((200 <=? c) && (c <? 300)) eqn:E2;
      [|destruct ((400 <=? c) && (c <? 500)) eqn:E4;
        [|destruct ((500 <=? c) && (c <? 600)) eqn:E5]];
      simpl; rewrite ?He, ?H2, ?H4, ?H5, ?atomic_AddUint64_mod, ?Z.add_0_r.
    + replace ((400 <=? c) && (c <? 500)) with false by lia.
      replace ((500 <=? c) && (c <? 600)) with false by lia.
      simpl. rewrite !Z.add_0_r. repeat split; try assumption; lia.
    + replace ((500 <=? c) && (c <? 600)) with false by lia.
      simpl. rewrite !Z.add_0_r. repeat split; try assumption; lia.
    + repeat split; try assumption; lia.
    + repeat split; try assumption; lia.
Qed.

Lemma run_counts steps :
  forall st st' e t2 t4 t5,
    counts e t2 t4 t5 st ->
    run steps st = Some st' ->
    counts (e + tally isEnter steps) (t2 + tally in2XX steps)
           (t4 + tally in4XX steps) (t5 + tally in5XX steps) st'.
Proof.
  induction steps as [|s steps IH]; intros st st' e t2 t4 t5 Hc Hr.
  - inversion Hr; subst. simpl. rewrite !Z.add_0_r. exact Hc.
  - simpl in Hr. destruct (step s st) as [st1|] eqn:Hs; [|discriminate].
    pose proof (IH _ _ _ _ _ _ (step_counts _ _ _ _ _ _ _ Hc Hs) Hr) as H.
    rewrite !tally_cons, !Z.add_assoc. exact H.
Qed.

Lemma started_counts target : counts 0 0 0 0 (started target).
Proof. unfold counts. simpl. repeat split; lia. Qed.

Lemma run_app l1 l2 st :
  run (l1 ++ l2) st =
  match run l1 st with
  | Some st' => run l2 st'
  | None => None
  end.
Proof.
  revert st. induction l1 as [|s l1 IH]; intros st; [reflexivity|].
  simpl. destruct (step s st); [apply IH | reflexivity].
Qed.

Lemma calls200_tally n :
  tally isEnter (calls200 n) = Z.of_nat n /\
  tally in2XX (calls200 n) = Z.of_nat n /\
  tally in4XX (calls200 n) = 0 /\
  tally in5XX (calls200 n) = 0.
Proof.
  induction n as [|n (He & H2 & H4 & H5)]; [repeat split|].
  change (calls200 (S n)) with (Enter :: Leave 200 :: calls200 n).
  rewrite !tally_cons, He, H2, H4, H5. simpl bit. repeat split; lia.
Qed.

Lemma calls200_run n :
  forall st, exists st', run (calls200 n) st = Some st'
                         /\ inflight st' = inflight st.
Proof.
  induction n as [|n IH]; intros st; [eexists; split; reflexivity|].
  destruct (IH (mkNodeState (classify 200 (countCall (counters st)))
                            (inflight st))) as (st' & Hr & Hi).
  exists st'. split; [exact Hr | exact Hi].
Qed.

(** C7, amended. The counters of a node start at zero, and in every state
    reached by interleaved calls of which fewer than 2^64 have entered, each
    counter is the number of steps of its kind so far, so that no counter
    has decreased or been reset and
    [Calls >= Calls2XX + Calls4XX + Calls5XX]; a call whose final status is
    in none of the three ranges leaves the class counters alone. *)
Theorem C7_counter_invariant target steps st :
  run steps (started target) = Some st ->
  tally isEnter steps < uint64_modulus ->
  let n := counters st in
  counters (started target) = mkNode target 0 0 0 0 /\
  Calls n = tally isEnter steps /\
  Calls2XX n = tally in2XX steps /\
  Calls4XX n = tally in4XX steps /\
  Calls5XX n = tally in5XX steps /\
  Calls n >= Calls2XX n + Calls4XX n + Calls5XX n /\
  (forall earlier later mid,
     steps = earlier ++ later ->
     run earlier (started target) = Some mid ->
     Calls (counters mid) <= Calls n /\
     Calls2XX (counters mid) <= Calls2XX n /\
     Calls4XX (counters mid) <= Calls4XX n /\
     Calls5XX (counters mid) <= Calls5XX n) /\
  (forall statusCode node,
     ~ 200 <= statusCode < 300 -> ~ 400 <= statusCode < 500 ->
     ~ 500 <= statusCode < 600 ->
     classify statusCode (countCall node) =
     mkNode (URL node) (atomic_AddUint64 (Calls node) 1) (Calls2XX node)
            (Calls4XX node) (Calls5XX node)).
Proof.
  intros Hr Hlt n.
  assert (Hexact : forall l s,
             run l (started target) = Some s ->
             tally isEnter l < uint64_modulus ->
             Calls (counters s) = tally isEnter l /\
             Calls2XX (counters s) = tally in2XX l /\
             Calls4XX (counters s) = tally in4XX l /\
             Calls5XX (counters s) = tally in5XX l /\
             tally in2XX l + tally in4XX l + tally in5XX l <= tally isEnter l).
  { intros l s Hl Hb.
    destruct (run_counts l _ _ _ _ _ _ (started_counts target) Hl)
      as (He & H2 & H4 & H5 & _ & _ & _ & Hle).
    rewrite !Z.add_0_l in *.
    pose proof (tally_nonneg isEnter l). pose proof (tally_nonneg in2XX l).
    pose proof (tally_nonneg in4XX l). pose proof (tally_nonneg in5XX l).
    rewrite Z.mod_small in He, H2, H4, H5 by lia.
    repeat split; try assumption; lia. }
  destruct (Hexact steps st Hr Hlt) as (He & H2 & H4 & H5 & Hle).
  split; [reflexivity|].
  repeat (split; [assumption|]).
  split; [subst n; lia|].
  split.
  - intros earlier later mid Heq Hmid. subst steps.
    rewrite !tally_app in *.
    pose proof (tally_nonneg isEnter later).
    pose proof (tally_nonneg in2XX later).
    pose proof (tally_nonneg in4XX later).
    pose proof (tally_nonneg in5XX later).
    destruct (Hexact earlier mid Hmid ltac:(lia)) as (Ke & K2 & K4 & K5 & _).
    subst n. lia.
  - intros statusCode node N2 N4 N5.
    apply (classify_other statusCode (countCall node) N2 N4 N5).
Qed.

Lemma C7_counter_invariant_witness :
  let steps := [Enter; Enter; Leave 200; Enter; Leave 302; Leave 404] in
  exists st,
    run steps (started "https://1rpc.io/eth") = Some st /\
    Calls (counters st) = 3 /\
    Calls2XX (counters st) = 1 /\
    Calls4XX (counters st) = 1 /\
    Calls5XX (counters st) = 0 /\
    Calls (counters st) >=
      Calls2XX (counters st) + Calls4XX (counters st) + Calls5XX (counters st).
Proof.
  intros steps. eexists. split; [reflexivity|].
  destruct (C7_counter_invariant "https://1rpc.io/eth" steps _ eq_refl
              ltac:(vm_compute; reflexivity))
    as (_ & He & H2 & H4 & H5 & Hinv & _).
  repeat split; assumption.
Defined.

(** C7 fails once [Calls] wraps around: after 2^64 - 1 calls answered 200 and
    one answered 404, [Calls] is back at 0 while the class counters hold
    2^64 - 1 and 1. *)
Lemma C7_counterexample :
  exists steps st,
    steps = calls200 (Z.to_nat (uint64_modulus - 1)) ++ [Enter; Leave 404] /\
    run steps (started "https://1rpc.io/eth") = Some st /\
    Calls (counters st) = 0 /\
    Calls2XX (counters st) = uint64_modulus - 1 /\
    Calls4XX (counters st) = 1 /\
    ~ Calls (counters st) >=
        Calls2XX (counters st) + Calls4XX (counters st)
        + Calls5XX (counters st).
Proof.
  assert (Hgen : forall n : nat,
             Z.of_nat n = uint64_modulus - 1 ->
             exists st,
               run (calls200 n ++ [Enter; Leave 404])
                   (started "https://1rpc.io/eth") = Some st /\
               Calls (counters st) = 0 /\
               Calls2XX (counters st) = uint64_modulus - 1 /\
               Calls4XX (counters st) = 1 /\
               Calls5XX (counters st) = 0).
  { intros n Hn.
    destruct (calls200_run n (started "https://1rpc.io/eth"))
      as (mid & Hmid & Hi).
    assert (Hrun : run (calls200 n ++ [Enter; Leave 404])
                       (started "https://1rpc.io/eth")
                   = Some (mkNodeState
                             (classify 404 (countCall (counters mid)))
                             (inflight mid))).
    { rewrite run_app, Hmid. reflexivity. }
    eexists. split; [exact Hrun|].
    destruct (run_counts _ _ _ _ _ _ _ (started_counts _) Hrun)
      as (He & H2 & H4 & H5 & _).
    rewrite !tally_app in *.
    destruct (calls200_tally n) as (Te & T2 & T4 & T5).
    rewrite Te in He. rewrite T2 in H2. rewrite T4 in H4. rewrite T5 in H5.
    rewrite Hn in He, H2.
    rewrite He, H2, H4, H5. rewrite uint64_modulus_eq.
    repeat split. }
  destruct (Hgen (Z.to_nat (uint64_modulus - 1))) as (st & Hr & H0 & H2 & H4 & H5).
  { rewrite Z2Nat.id; [reflexivity|]. rewrite uint64_modulus_eq. lia. }
  exists (calls200 (Z.to_nat (uint64_modulus - 1)) ++ [Enter; Leave 404]), st.
  split; [reflexivity|].
  repeat (split; [assumption|]).
  rewrite H0, H2, H4, H5, uint64_modulus_eq. lia.
Qed.

(** ** Round robin *)

Lemma nextNode_nonempty logger nodes c :
  nodes <> [] ->
  exists node,
    nextNode logger (mkRegistry nodes c) =
    Some (mkSelection
            (mkRegistry nodes (atomic_AddUint64 c 1))
            (atomic_AddUint64 c 1 mod Z.of_nat (length nodes)) node
            (Debugf logger
               (MsgRoundRobin
                  (atomic_AddUint64 c 1 mod Z.of_nat (length nodes))))).
Proof.
  intros Hne. unfold nextNode. simpl.
  assert (Hpos : 0 < Z.of_nat (length nodes))
    by (destruct nodes; [congruence | simpl; lia]).
  replace (Z.of_nat (length nodes) =? 0) with false by lia.
  pose proof (Z.mod_pos_bound (atomic_AddUint64 c 1) _ Hpos) as Hb.
  destruct (lookup_lt_is_Some_2 nodes
              (Z.to_nat (atomic_AddUint64 c 1 mod Z.of_nat (length nodes))))
    as [node Hnode]; [lia|].
  exists node. rewrite Hnode. reflexivity.
Qed.

(** Every selection from a non-empty list returns a node. *)
Lemma nextNode_total logger g :
  ReverseProxyNodes g <> [] -> exists s, nextNode logger g = Some s.
Proof.
  destruct g as [nodes c]. intros Hne.
  destruct (nextNode_nonempty logger nodes c Hne) as [node H]. eauto.
Qed.

Lemma selections_wrapping logger nodes K :
  nodes <> [] ->
  forall c,
    selections logger K (mkRegistry nodes c) =
    Some (map (fun i : nat =>
                 ((c + Z.of_nat i) mod uint64_modulus)
                 mod Z.of_nat (length nodes))
              (seq 1 K)).
Proof.
  intros Hne. induction K as [|K IH]; intros c; [reflexivity|].
  destruct (nextNode_nonempty logger nodes c Hne) as [node Hn].
  simpl selections. rewrite Hn. simpl registry_after. simpl nextIndex.
  rewrite IH. f_equal. simpl seq. simpl map. f_equal.
  rewrite <- (seq_shift K 1), map_map.
  apply map_ext. intros i. unfold atomic_AddUint64.
  rewrite Zplus_mod_idemp_l. f_equal. f_equal. lia.
Qed.

(** C3, amended. From a registry of N >= 1 nodes whose cursor is [c], K
    successive selections return the indices
    [((c + i) mod 2^64) mod N] for i = 1..K, which is [(c + i) mod N] as long
    as the cursor does not wrap ([c + K < 2^64]). From a fresh registry the
    first index is [1 mod N]: index 1 when N >= 2, index 0 when N = 1. *)
Theorem C3_round_robin_indices logger nodes c K :
  nodes <> [] ->
  0 <= c < uint64_modulus ->
  let N := Z.of_nat (length nodes) in
  selections logger K (mkRegistry nodes c) =
    Some (map (fun i : nat => ((c + Z.of_nat i) mod uint64_modulus) mod N)
              (seq 1 K)) /\
  (c + Z.of_nat K < uint64_modulus ->
   selections logger K (mkRegistry nodes c) =
     Some (map (fun i : nat => (c + Z.of_nat i) mod N) (seq 1 K))) /\
  selections logger 1 (mkRegistry nodes 0) = Some [1 mod N] /\
  (2 <= N -> selections logger 1 (mkRegistry nodes 0) = Some [1]) /\
  (N = 1 -> selections logger 1 (mkRegistry nodes 0) = Some [0]).
Proof.
  intros Hne Hc N.
  assert (Hfirst : selections logger 1 (mkRegistry nodes 0) = Some [1 mod N]).
  { rewrite (selections_wrapping logger nodes 1 Hne 0). reflexivity. }
  split; [apply selections_wrapping; exact Hne|].
  split.
  - intros Hk. rewrite (selections_wrapping logger nodes K Hne c).
    f_equal. apply map_ext_in. intros i Hi. apply in_seq in Hi.
    rewrite (Z.mod_small (c + Z.of_nat i)) by lia. reflexivity.
  - split; [exact Hfirst|]. split; intros HN; rewrite Hfirst.
    + rewrite Z.mod_small by lia. reflexivity.
    + rewrite HN. reflexivity.
Qed.

Lemma C3_round_robin_indices_witness :
  let nodes := [buildNode "a"; buildNode "b"; buildNode "c"] in
  selections Sample.logger 5 (mkRegistry nodes 0) = Some [1; 2; 0; 1; 2] /\
  selections Sample.logger 1 (mkRegistry nodes 0) = Some [1].
Proof.
  intros nodes.
  destruct (C3_round_robin_indices Sample.logger nodes 0 5
              ltac:(discriminate) ltac:(vm_compute; split; congruence))
    as (_ & Hk & _ & H1 & _).
  split; [exact (Hk eq_refl) | exact (H1 ltac:(vm_compute; congruence))].
Defined.

(** C3 fails. With a single node the very first selection of a fresh
    registry is index 0; and at the last cursor value the next index is
    [(2^64 mod 2^64) mod 3 = 0] where [(c + 1) mod 3] is 1. *)
Lemma C3_counterexample :
  selections Sample.logger 1 (mkRegistry [Sample.node] 0) = Some [0] /\
  (let c := uint64_modulus - 1 in
   let nodes := [buildNode "a"; buildNode "b"; buildNode "c"] in
   selections Sample.logger 1 (mkRegistry nodes c) = Some [0] /\
   (c + 1) mod Z.of_nat (length nodes) = 1).
Proof. vm_compute. repeat split. Qed.

(** ** The health probe *)

Section HealthClaims.
Context `{libs : GoLibs} (logger : ConsoleLogger).

(** C5. In health-probe mode the reply is a function of the single outcome
    of the one probe request: a transport failure gives 503; a body that does
    not decode gives 500; result false gives 200; result true gives 500; any
    other result gives 502 with the upstream body written back as it is and
    one INFO line. *)
Theorem C5_health_probe_outcomes g up :
  ReverseProxyNodes g <> [] ->
  exists reply,
    healthz logger true g up = Some reply /\
    reply = probe logger up /\
    (forall err, up = TransportFailure err ->
       status reply = 503 /\ written reply = EmptyString) /\
    (forall body,
       up = Responded body -> fault body = None ->
       (forall err,
          json_Decode (bytes_NewReader (pending body)) = Err err ->
          status reply = 500 /\ written reply = EmptyString) /\
       (forall jsonResp,
          json_Decode (bytes_NewReader (pending body)) = Ok jsonResp ->
          (jsonResp !! "result" = Some (JBool false) ->
           status reply = 200 /\ written reply = EmptyString) /\
          (jsonResp !! "result" = Some (JBool true) ->
           status reply = 500 /\ written reply = EmptyString) /\
          ((forall x, jsonResp !! "result" <> Some (JBool x)) ->
           status reply = 502 /\
           written reply = pending body /\
           reply_log reply =
             [(INFO, MsgHealthResult (jsonResp !! "result"))]))).
Proof.
  intros Hne. exists (probe logger up). unfold healthz.
  destruct (ReverseProxyNodes g) as [|node nodes] eqn:Hg; [congruence|].
  split; [reflexivity|]. split; [reflexivity|]. split.
  - intros err ->. split; reflexivity.
  - intros body -> Hf. unfold probe, io_ReadAll. rewrite Hf. split.
    + intros err ->. split; reflexivity.
    + intros jsonResp ->. split; [|split].
      * intros ->. split; reflexivity.
      * intros ->. split; reflexivity.
      * intros Hother.
        destruct (jsonResp !! "result") as [[| x | | | |]|] eqn:Hres;
          try (repeat split; fail).
        exfalso. apply (Hother x). reflexivity.
Qed.

End HealthClaims.

(** The scenarios of the spec, run on the reference libraries. *)
Lemma health_probe_scenarios :
  let g := mkRegistry [Sample.node] 0 in
  let run body :=
    healthz (libs := RefLibs) Sample.logger true g
            (Responded (bytes_NewReader body)) in
  (exists r, run Sample.synced = Some r /\ status r = 200) /\
  (exists r, run Sample.syncing_true = Some r /\ status r = 500) /\
  (exists r, run Sample.syncing_object = Some r /\ status r = 502
             /\ written r = Sample.syncing_object) /\
  (exists r, healthz (libs := RefLibs) Sample.logger true g
               (TransportFailure "context deadline exceeded") = Some r
             /\ status r = 503).
Proof. repeat split; eexists; vm_compute; repeat split. Qed.

Lemma C5_health_probe_outcomes_witness :
  let g := mkRegistry [Sample.node] 0 in
  exists reply,
    healthz (libs := RefLibs) Sample.logger true g
            (Responded (bytes_NewReader Sample.syncing_object)) = Some reply /\
    status reply = 502 /\
    written reply = Sample.syncing_object.
Proof.
  intros g.
  destruct (C5_health_probe_outcomes (libs := RefLibs) Sample.logger g
              (Responded (bytes_NewReader Sample.syncing_object))
              ltac:(discriminate))
    as (reply & Hr & _ & _ & Hbody).
  exists reply. split; [exact Hr|].
  destruct (Hbody _ eq_refl eq_refl) as (_ & Hok).
  destruct (Hok _ eq_refl) as (_ & _ & Hother).
  destruct Hother as (Hs & Hw & _).
  - intros x. vm_compute. discriminate.
  - split; [exact Hs | exact Hw].
Defined.

(** ** The metrics reporter *)

(** C9. With a print interval of zero [runPrintNodeMetrics] returns at once:
    no ticker is created and, whatever happens afterwards, the task logs
    nothing. No other part of the program writes a metrics line: not the
    response hook, not the health probe, not the selection. *)
Theorem C9_zero_interval_never_reports logger events :
  runPrintNodeMetrics logger 0 events = Returned false [] /\
  (forall (libs : GoLibs) node r,
     existsb isMetrics (logged (ModifyResponse logger node r)) = false) /\
  (forall (libs : GoLibs) up,
     existsb isMetrics (reply_log (probe logger up)) = false) /\
  (forall nextIndex,
     existsb isMetrics (Debugf logger (MsgRoundRobin nextIndex)) = false).
Proof.
  split; [reflexivity|]. split; [|split].
  - intros libs node r. apply ModifyResponse_no_metrics.
  - intros libs up. apply probe_no_metrics.
  - intros i. unfold Debugf. destruct (debug logger); reflexivity.
Qed.

(** With a positive interval, each tick logs one line per node after the
    banner. *)
Lemma runPrintNodeMetrics_tick logger interval nodes :
  0 < interval ->
  runPrintNodeMetrics logger interval [Tick nodes; Cancelled] =
  Returned true (printNodes logger nodes).
Proof.
  intros H. unfold runPrintNodeMetrics.
  replace (interval =? 0) with false by lia.
  replace (interval <? 0) with false by lia.
  reflexivity.
Qed.

(** * More properties of the program *)

(** ** The response hook *)

Section InspectorMore.
Context `{libs : GoLibs} (logger : ConsoleLogger).

(** X1. A response whose Content-Encoding header is missing, or is neither
    gzip nor deflate, is not decoded: [tryDecompressResponse] returns the
    body as it is and no error, whatever the decoders would make of it. *)
Theorem X1_other_encodings_pass_through r b :
  (Header r !! "Content-Encoding" = None ->
   tryDecompressResponse r b = (b, None)) /\
  (Header_Get (Header r) "Content-Encoding" <> "gzip" ->
   Header_Get (Header r) "Content-Encoding" <> "deflate" ->
   tryDecompressResponse r b = (b, None)) /\
  (forall ub e,
     tryDecompressResponse r b = (ub, Some e) ->
     Header_Get (Header r) "Content-Encoding" = "gzip" \/
     Header_Get (Header r) "Content-Encoding" = "deflate").
Proof.
  assert (Hother :
            Header_Get (Header r) "Content-Encoding" <> "gzip" ->
            Header_Get (Header r) "Content-Encoding" <> "deflate" ->
            tryDecompressResponse r b = (b, None)).
  { intros Hg Hd. unfold tryDecompressResponse.
    apply String.eqb_neq in Hg, Hd. rewrite Hg, Hd. reflexivity. }
  split; [|split].
  - intros Hnone. apply Hother; unfold Header_Get; rewrite Hnone;
      discriminate.
  - exact Hother.
  - intros ub e Hd.
    destruct (String.eqb_spec (Header_Get (Header r) "Content-Encoding")
                              "gzip") as [|Hg]; [left; assumption|].
    destruct (String.eqb_spec (Header_Get (Header r) "Content-Encoding")
                              "deflate") as [|Hf]; [right; assumption|].
    rewrite (Hother Hg Hf) in Hd. discriminate.
Qed.

(** X2. [ModifyResponse] returns an error exactly when reading the upstream
    body fails, and then it is that error: a failure to decode or to parse
    the body is never returned to the transport. *)
Theorem X2_hook_fails_only_on_read_failure node r :
  returned (ModifyResponse logger node r) = fault (Body r).
Proof.
  unfold ModifyResponse, io_ReadAll.
  destruct (fault (Body r)); [reflexivity|].
  destruct (inspect _ _ _ _); reflexivity.
Qed.

(** X3. A call of [ModifyResponse] logs at most one line, at WARN level,
    and it logs one exactly when the body was read and decoded and then
    either carries an error field or does not parse. *)
Theorem X3_hook_log node r :
  let o := ModifyResponse logger node r in
  let b := pending (Body r) in
  (logged o = [] \/ exists m, logged o = [(WARN, m)]) /\
  (logged o <> [] <->
   fault (Body r) = None /\ (ErrorSignature r b \/ ParseFails r b)).
Proof.
  intros o b. unfold o, ModifyResponse, io_ReadAll. fold b.
  destruct (fault (Body r)) as [err|] eqn:Hf.
  { simpl. split; [left; reflexivity|].
    split; [congruence | intros [Hn _]; discriminate]. }
  destruct (inspect logger (countCall node) r b) as [sc lines] eqn:Hi.
  simpl. unfold inspect in Hi.
  destruct (tryDecompressResponse r b) as [ub [e|]] eqn:Hd.
  - inversion Hi; subst. split; [left; reflexivity|].
    split; [congruence|].
    intros [_ [(ub' & doc & Hd' & _) | (ub' & e' & Hd' & _)]]; congruence.
  - destruct (jsonquery_Parse (bytes_NewReader ub)) as [doc|e] eqn:Hp.
    + destruct (FindOne "error" doc) as [n|] eqn:Hn; inversion Hi; subst.
      * split; [right; eexists; reflexivity|].
        split; [|discriminate]. intros _. split; [reflexivity|]. left.
        exists ub, doc. eauto using FindOne_sound.
      * split; [left; reflexivity|]. split; [congruence|].
        intros [_ [(ub' & doc' & Hd' & Hp' & Hf') | (ub' & e' & Hd' & Hp')]].
        -- assert (ub' = ub) by congruence. subst ub'.
           assert (doc' = doc) by congruence. subst doc'.
           apply FindOne_complete in Hf' as [m Hm]. congruence.
        -- assert (ub' = ub) by congruence. subst ub'. congruence.
    + inversion Hi; subst. split; [right; eexists; reflexivity|].
      split; [|discriminate]. intros _. split; [reflexivity|]. right.
      exists ub, e. split; assumption.
Qed.

(** X4. After a call that read the body, the response carries a fresh
    reader over exactly the bytes read, [ContentLength] and the
    Content-Length header both give their number, whatever the upstream had
    declared, and every other header is as it was. *)
Theorem X4_body_and_length_restored node r :
  fault (Body r) = None ->
  let b := pending (Body r) in
  let res := resp_after (ModifyResponse logger node r) in
  Body res = bytes_NewReader b /\
  ContentLength res = len (pending (Body res)) /\
  Header_Get (Header res) "Content-Length" = pretty (len b) /\
  (forall key, key <> "Content-Length" ->
     Header res !! key = Header r !! key) /\
  Header_Get (Header res) "Content-Encoding" =
    Header_Get (Header r) "Content-Encoding".
Proof.
  intros Hf b res. unfold res.
  rewrite (ModifyResponse_read_ok logger node r Hf). simpl. fold b.
  unfold Header_Get, Header_Set.
  rewrite lookup_insert_eq.
  rewrite lookup_insert_ne by discriminate.
  repeat split.
  intros key Hk. apply lookup_insert_ne. congruence.
Qed.

(** X5. On a response whose body could be read, the hook is idempotent:
    run again on the response it produced, on behalf of any node, it leaves
    that response as it is, returns nil again and reaches the same final
    status; for a node of the same address it logs the same line. (When the
    body cannot be read the first call already returns the read error and
    restores nothing.) *)
Theorem X5_hook_idempotent node node' r :
  fault (Body r) = None ->
  let o := ModifyResponse logger node r in
  let o' := ModifyResponse logger node' (resp_after o) in
  resp_after o' = resp_after o /\
  returned o' = None /\
  finalStatus logger node' (resp_after o) = finalStatus logger node r /\
  (URL node' = URL node -> logged o' = logged o).
Proof.
  intros Hf o o'.
  pose proof (ModifyResponse_read_ok logger node r Hf) as Ho. simpl in Ho.
  fold o in Ho.
  set (b := pending (Body r)) in *.
  set (res := mkResponse (StatusCode r)
                (Header_Set (Header r) "Content-Length" (pretty (len b)))
                (bytes_NewReader b) (len b)) in *.
  assert (Hres : resp_after o = res) by (rewrite Ho; reflexivity).
  assert (Hd : tryDecompressResponse res b = tryDecompressResponse r b).
  { unfold tryDecompressResponse, res, Header_Get, Header_Set. simpl.
    rewrite lookup_insert_ne by discriminate. reflexivity. }
  assert (Hi : forall n n',
             fst (inspect logger n' res b) = fst (inspect logger n r b) /\
             (URL n' = URL n ->
              snd (inspect logger n' res b) = snd (inspect logger n r b))).
  { intros n n'. unfold inspect. rewrite Hd.
    destruct (tryDecompressResponse r b) as [ub [e|]];
      [split; reflexivity|].
    destruct (jsonquery_Parse (bytes_NewReader ub)) as [doc|e].
    - destruct (FindOne "error" doc); split; try reflexivity.
      intros ->. reflexivity.
    - split; [reflexivity|]. intros ->. reflexivity. }
  assert (Hf' : fault (Body res) = None) by reflexivity.
  pose proof (ModifyResponse_read_ok logger node' res Hf') as Ho'.
  simpl in Ho'. unfold o'. rewrite Hres, Ho'. simpl.
  split; [|split; [reflexivity|split]].
  - unfold res, Header_Set. simpl. rewrite insert_insert_eq. reflexivity.
  - unfold finalStatus, io_ReadAll. rewrite Hf. simpl.
    apply (Hi (countCall node) (countCall node')).
  - intros Hu. rewrite Ho. simpl.
    apply (Hi (countCall node) (countCall node')). exact Hu.
Qed.

(** X6. The body inspection changed the counting only for flagged
    responses: for a response whose body cannot be read, or read without an
    error signature, [ModifyResponse] leaves the counters as the first
    [ModifyResponse] did; a flagged one is counted as 4xx where the first
    version went by its upstream status. *)
Theorem X6_counters_as_before_unless_flagged node r :
  let b := pending (Body r) in
  (~ (fault (Body r) = None /\ ErrorSignature r b) ->
   node_after (ModifyResponse logger node r) = ModifyResponse0 node r) /\
  (fault (Body r) = None -> ErrorSignature r b ->
   node_after (ModifyResponse logger node r) = classify 429 (countCall node)).
Proof.
  intros b. rewrite ModifyResponse_node. unfold ModifyResponse0, finalStatus,
    io_ReadAll. fold b.
  split.
  - intros Hno. destruct (fault (Body r)) as [err|]; [reflexivity|].
    simpl.
    rewrite (proj1 (inspect_no_signature logger (countCall node) r b
                      (fun Hs => Hno (conj eq_refl Hs)))).
    reflexivity.
  - intros Hf Hs. rewrite Hf. simpl.
    destruct (inspect_signature logger (countCall node) r b Hs) as [c Hc].
    rewrite Hc. reflexivity.
Qed.

End InspectorMore.

(** ** Selection *)

Lemma nextNode_selected logger g s :
  nextNode logger g = Some s ->
  0 <= nextIndex s < Z.of_nat (length (ReverseProxyNodes g)) /\
  ReverseProxyNodes g !! Z.to_nat (nextIndex s) = Some (selected s) /\
  ReverseProxyNodes (registry_after s) = ReverseProxyNodes g /\
  nodesIndex (registry_after s) = atomic_AddUint64 (nodesIndex g) 1 /\
  selection_log s =
    if debug logger then [(DEBUG, MsgRoundRobin (nextIndex s))] else [].
Proof.
  destruct g as [nodes c]. simpl. intros Hs.
  destruct nodes as [|n nodes]; [discriminate|].
  unfold nextNode in Hs. simpl ReverseProxyNodes in Hs.
  simpl nodesIndex in Hs.
  set (N := Z.of_nat (length (n :: nodes))) in *.
  assert (Hpos : 0 < N) by (unfold N; simpl; lia).
  replace (N =? 0) with false in Hs by lia.
  pose proof (Z.mod_pos_bound (atomic_AddUint64 c 1) N Hpos) as Hb.
  destruct ((n :: nodes) !! Z.to_nat (atomic_AddUint64 c 1 mod N))
    as [node|] eqn:Hl; [|discriminate].
  inversion Hs; subst s; clear Hs. simpl.
  repeat split; try lia. exact Hl.
Qed.

(** X7. [nextNode] panics exactly on an empty list. Otherwise it returns the
    node at an index within the list, leaves the list as it is, advances the
    cursor by one, and logs its choice only in debug mode. *)
Theorem X7_nextNode_in_range logger g :
  (nextNode logger g = None <-> ReverseProxyNodes g = []) /\
  (forall s,
     nextNode logger g = Some s ->
     0 <= nextIndex s < Z.of_nat (length (ReverseProxyNodes g)) /\
     ReverseProxyNodes g !! Z.to_nat (nextIndex s) = Some (selected s) /\
     ReverseProxyNodes (registry_after s) = ReverseProxyNodes g /\
     nodesIndex (registry_after s) = atomic_AddUint64 (nodesIndex g) 1 /\
     selection_log s =
       if debug logger then [(DEBUG, MsgRoundRobin (nextIndex s))] else []).
Proof.
  split; [|apply nextNode_selected].
  destruct g as [nodes c]. simpl. split.
  - intros Hn. destruct nodes as [|n nodes]; [reflexivity|].
    destruct (nextNode_nonempty logger (n :: nodes) c ltac:(discriminate))
      as [node Hnode]. congruence.
  - intros ->. reflexivity.
Qed.

Lemma round_index_injective c N i i' :
  0 < N -> 0 <= i - i' < N ->
  (c + i) mod N = (c + i') mod N -> i = i'.
Proof.
  intros HN Hd He.
  pose proof (Z.div_mod (c + i) N ltac:(lia)) as H1.
  pose proof (Z.div_mod (c + i') N ltac:(lia)) as H2.
  rewrite He in H1.
  set (q := (c + i) / N) in *. set (q' := (c + i') / N) in *.
  set (m := (c + i') mod N) in *.
  destruct (Z.lt_trichotomy q q') as [Hlt|[Heq|Hgt]]; [nia | subst; lia | nia].
Qed.

(** The indices of one round: no index twice, every index once. *)
Lemma round_indices c (n : nat) :
  (0 < n)%nat ->
  let R := map (fun i : nat => (c + Z.of_nat i) mod Z.of_nat n) (seq 1 n) in
  NoDup R /\ forall j, j ∈ R <-> 0 <= j < Z.of_nat n.
Proof.
  intros Hn R. unfold R.
  change (map ?f ?l) with (f <$> l). split.
  - apply NoDup_fmap_2_strong; [|apply NoDup_seq].
    intros i i' Hi Hi' He. apply elem_of_seq in Hi, Hi'.
    destruct (Z.le_ge_cases (Z.of_nat i') (Z.of_nat i)) as [Hle|Hle].
    + apply Nat2Z.inj.
      apply (round_index_injective c (Z.of_nat n)); [lia | lia | exact He].
    + symmetry. apply Nat2Z.inj.
      apply (round_index_injective c (Z.of_nat n)); [lia | lia |].
      symmetry. exact He.
  - intros j. rewrite list_elem_of_fmap. split.
    + intros (i & -> & _). apply Z.mod_pos_bound. lia.
    + intros Hj.
      exists (S (Z.to_nat ((j - c - 1) mod Z.of_nat n))).
      pose proof (Z.mod_pos_bound (j - c - 1) (Z.of_nat n) ltac:(lia)) as Hb.
      split.
      * rewrite Nat2Z.inj_succ, Z2Nat.id by lia.
        replace (c + Z.succ ((j - c - 1) mod Z.of_nat n))
          with ((c + 1) + (j - c - 1) mod Z.of_nat n) by lia.
        rewrite Zplus_mod_idemp_r.
        replace (c + 1 + (j - c - 1)) with j by lia.
        symmetry. apply Z.mod_small. exact Hj.
      * apply elem_of_seq. lia.
Qed.

(** X8. Round robin is fair: as long as the cursor does not wrap, as many
    successive selections as there are nodes choose every node exactly
    once. *)
Theorem X8_one_round_selects_every_node_once logger nodes c :
  nodes <> [] ->
  0 <= c ->
  c + Z.of_nat (length nodes) < uint64_modulus ->
  exists chosen,
    selections logger (length nodes) (mkRegistry nodes c) = Some chosen /\
    Permutation chosen (seqZ 0 (Z.of_nat (length nodes))).
Proof.
  intros Hne Hc Hw.
  assert (Hn : (0 < length nodes)%nat)
    by (destruct nodes; [congruence | simpl; lia]).
  exists (map (fun i : nat => (c + Z.of_nat i) mod Z.of_nat (length nodes))
              (seq 1 (length nodes))).
  split.
  - rewrite (selections_wrapping logger nodes (length nodes) Hne c).
    f_equal. apply map_ext_in. intros i Hi. apply in_seq in Hi.
    rewrite (Z.mod_small (c + Z.of_nat i)) by lia. reflexivity.
  - destruct (round_indices c (length nodes) Hn) as [Hnd Hin].
    apply NoDup_Permutation; [exact Hnd | apply NoDup_seqZ |].
    intros j. rewrite Hin, elem_of_seqZ. lia.
Qed.

Lemma X8_one_round_selects_every_node_once_witness :
  exists chosen,
    selections Sample.logger 3
      (mkRegistry [buildNode "a"; buildNode "b"; buildNode "c"] 7)
    = Some chosen /\
    Permutation chosen [0; 1; 2].
Proof.
  exact (X8_one_round_selects_every_node_once Sample.logger
           [buildNode "a"; buildNode "b"; buildNode "c"] 7
           ltac:(discriminate) ltac:(lia) ltac:(vm_compute; reflexivity)).
Defined.

(** ** Start-up *)

Section StartupFacts.
Variable url_Parse : string -> result string.

Lemma buildNodes_built nodes built :
  buildNodes url_Parse nodes = inr built ->
  Forall2 (fun text node => url_Parse text = Ok (URL node)
                            /\ node = mkNode (URL node) 0 0 0 0)
          nodes built.
Proof.
  revert built. induction nodes as [|text nodes IH]; intros built Hb.
  - inversion Hb. constructor.
  - simpl in Hb. destruct (url_Parse text) as [u|e] eqn:Hu; [|discriminate].
    destruct (buildNodes url_Parse nodes) as [m|rest]; [discriminate|].
    inversion Hb; subst. constructor; [|apply IH; reflexivity].
    split; [exact Hu | reflexivity].
Qed.

Lemma buildNodes_ok nodes :
  Forall (fun text => exists u, url_Parse text = Ok u) nodes ->
  exists built, buildNodes url_Parse nodes = inr built.
Proof.
  induction 1 as [|text nodes [u Hu] _ [built Hb]]; [eexists; reflexivity|].
  simpl. rewrite Hu, Hb. eexists; reflexivity.
Qed.

Lemma buildNodes_failed nodes m :
  buildNodes url_Parse nodes = inl m ->
  exists before text after e,
    m = CannotParseNodeURL text /\
    nodes = before ++ text :: after /\
    url_Parse text = Err e /\
    Forall (fun t => exists u, url_Parse t = Ok u) before.
Proof.
  induction nodes as [|t nodes IH]; [discriminate|]. simpl.
  destruct (url_Parse t) as [u|e] eqn:Hu.
  - destruct (buildNodes url_Parse nodes) as [m'|rest]; [|discriminate].
    intros Hm. inversion Hm; subst m'.
    destruct (IH eq_refl) as (before & text & after & e & -> & -> & He & Hb).
    exists (t :: before), text, after, e. repeat split; try assumption.
    constructor; [eauto | exact Hb].
  - intros Hm. inversion Hm; subst.
    exists [], t, nodes, e. repeat split; [exact Hu | constructor].
Qed.

(** X9. [main] gets past its start-up checks exactly when at least one
    upstream is configured, no more than one if the health proxy is on, and
    every address parses. When an address does not parse, the process exits
    naming the first such address. *)
Theorem X9_startup_checks nodeHealthProxy nodes :
  ((exists g, startup url_Parse nodeHealthProxy nodes = Serving g) <->
   nodes <> [] /\
   (nodeHealthProxy = true -> length nodes = 1%nat) /\
   Forall (fun text => exists u, url_Parse text = Ok u) nodes) /\
  (forall text,
     startup url_Parse nodeHealthProxy nodes
     = Exited (CannotParseNodeURL text) ->
     exists before after e,
       nodes = before ++ text :: after /\
       url_Parse text = Err e /\
       Forall (fun t => exists u, url_Parse t = Ok u) before).
Proof.
  unfold startup. split.
  - split.
    + intros [g Hg].
      destruct nodes as [|t nodes']; [discriminate|].
      set (l := t :: nodes') in *.
      replace (length l =? 0)%nat with false in Hg by reflexivity.
      destruct (nodeHealthProxy && (1 <? length l)%nat) eqn:Hp;
        [discriminate|].
      destruct (buildNodes url_Parse l) as [m|built] eqn:Hb; [discriminate|].
      split; [discriminate|]. split.
      * intros ->. simpl in Hp. apply Nat.ltb_ge in Hp.
        unfold l in *. simpl in *. lia.
      * apply buildNodes_built in Hb.
        clear -Hb. induction Hb as [|? ? ? ? [Hu _] _ IH]; constructor; eauto.
    + intros (Hne & Hone & Hall).
      destruct nodes as [|t nodes']; [congruence|].
      set (l := t :: nodes') in *.
      replace (length l =? 0)%nat with false by reflexivity.
      assert (Hp : nodeHealthProxy && (1 <? length l)%nat = false).
      { destruct nodeHealthProxy; [|reflexivity].
        rewrite (Hone eq_refl). reflexivity. }
      rewrite Hp. destruct (buildNodes_ok l Hall) as [built Hb].
      rewrite Hb. eauto.
  - intros text Hx.
    destruct (length nodes =? 0)%nat; [discriminate|].
    destruct (nodeHealthProxy && (1 <? length nodes)%nat); [discriminate|].
    destruct (buildNodes url_Parse nodes) as [m|built] eqn:Hb;
      [|discriminate].
    inversion Hx; subst m.
    destruct (buildNodes_failed nodes _ Hb)
      as (before & text' & after & e & Heq & Hn & He & Hbefore).
    inversion Heq; subst text'. eauto 6.
Qed.

(** X10. A registry that start-up hands to the handlers has one node per
    configured address, in order, each with all counters at zero, and a
    cursor at zero; on it no sequence of selections runs into the panic of
    [nextNode], and the health handler does not run into its own. *)
Theorem X10_started_registry_is_safe nodeHealthProxy nodes g :
  startup url_Parse nodeHealthProxy nodes = Serving g ->
  nodesIndex g = 0 /\
  Forall2 (fun text node => url_Parse text = Ok (URL node)
                            /\ node = mkNode (URL node) 0 0 0 0)
          nodes (ReverseProxyNodes g) /\
  (forall logger K,
     exists chosen,
       selections logger K g = Some chosen /\ length chosen = K) /\
  (forall (libs : GoLibs) logger up,
     exists reply, healthz logger nodeHealthProxy g up = Some reply).
Proof.
  unfold startup. intros Hs.
  destruct nodes as [|t nodes']; [discriminate|].
  set (l := t :: nodes') in *.
  replace (length l =? 0)%nat with false in Hs by reflexivity.
  destruct (nodeHealthProxy && (1 <? length l)%nat); [discriminate|].
  destruct (buildNodes url_Parse l) as [m|built] eqn:Hb; [discriminate|].
  inversion Hs; subst g; clear Hs. simpl.
  pose proof (buildNodes_built l built Hb) as Hbuilt.
  assert (Hne : built <> []).
  { inversion Hbuilt; subst; discriminate. }
  split; [reflexivity|]. split; [exact Hbuilt|]. split.
  - intros logger K. eexists. split.
    + apply (selections_wrapping logger built K Hne).
    + rewrite length_map, length_seq. reflexivity.
  - intros libs logger up. unfold healthz. simpl.
    destruct nodeHealthProxy; [|eauto].
    destruct built as [|node built']; [congruence|]. simpl. eauto.
Qed.

End StartupFacts.

Lemma X10_started_registry_is_safe_witness :
  let nodes := ["https://eth.llamarpc.com"; "https://1rpc.io/eth"] in
  exists g,
    startup RefURL.Parse false nodes = Serving g /\
    nodesIndex g = 0 /\
    ReverseProxyNodes g =
      [buildNode "https://eth.llamarpc.com"; buildNode "https://1rpc.io/eth"] /\
    exists chosen, selections Sample.logger 3 g = Some chosen
                   /\ length chosen = 3%nat.
Proof.
  intros nodes. eexists. split; [vm_compute; reflexivity|].
  destruct (X10_started_registry_is_safe RefURL.Parse false nodes _
              ltac:(vm_compute; reflexivity))
    as (Hc & _ & Hsel & _).
  split; [exact Hc|]. split; [reflexivity|]. exact (Hsel Sample.logger 3%nat).
Defined.

(** ** The handler of [/] *)

Lemma classify_URL statusCode node : URL (classify statusCode node) = URL node.
Proof.
  unfold classify.
  repeat match goal with |- context [if ?c then _ else _] => destruct c end;
    reflexivity.
Qed.

Lemma occurrences_app j l1 l2 :
  occurrences j (l1 ++ l2) = occurrences j l1 + occurrences j l2.
Proof.
  induction l1 as [|i l1 IH]; [reflexivity|].
  simpl. rewrite IH. lia.
Qed.

Lemma occurrences_absent j l : j ∉ l -> occurrences j l = 0.
Proof.
  induction l as [|i l IH]; [reflexivity|].
  intros Hn. apply not_elem_of_cons in Hn as [Hne Hn]. simpl.
  replace (i =? j) with false by lia. rewrite (IH Hn). reflexivity.
Qed.

Lemma occurrences_once j l : NoDup l -> j ∈ l -> occurrences j l = 1.
Proof.
  induction 1 as [|i l Hi Hnd IH]; intros Hj; [inversion Hj|].
  simpl. apply elem_of_cons in Hj as [->|Hj].
  - rewrite Z.eqb_refl, (occurrences_absent _ _ Hi). reflexivity.
  - assert (i <> j) by (intros ->; contradiction).
    replace (i =? j) with false by lia. rewrite (IH Hj). reflexivity.
Qed.

(** The indices of [K] selections from cursor [c] among [n] nodes, when the
    cursor does not wrap. *)
Lemma indices_cons c (n K : nat) :
  map (fun i : nat => (c + Z.of_nat i) mod Z.of_nat n) (seq 1 (S K)) =
  (c + 1) mod Z.of_nat n
  :: map (fun i : nat => (c + 1 + Z.of_nat i) mod Z.of_nat n) (seq 1 K).
Proof.
  simpl seq. simpl map. f_equal.
  rewrite <- (seq_shift K 1), map_map. apply map_ext. intros i.
  f_equal. lia.
Qed.

Lemma indices_round c (n K : nat) :
  map (fun i : nat => (c + Z.of_nat i) mod Z.of_nat n) (seq 1 (n + K)) =
  map (fun i : nat => (c + Z.of_nat i) mod Z.of_nat n) (seq 1 n)
  ++ map (fun i : nat => (c + Z.of_nat i) mod Z.of_nat n) (seq 1 K).
Proof.
  rewrite seq_app, map_app. f_equal.
  replace (1 + n)%nat with (n + 1)%nat by lia.
  change (seq (n + 1) K) with (seq (n + 1) K).
  rewrite <- (fmap_add_seq n 1 K).
  change (Nat.add n <$> seq 1 K) with (map (Nat.add n) (seq 1 K)).
  rewrite map_map. apply map_ext. intros i.
  destruct n as [|n']; [f_equal; lia|].
  rewrite Nat2Z.inj_add.
  replace (c + (Z.of_nat (S n') + Z.of_nat i))
    with (c + Z.of_nat i + 1 * Z.of_nat (S n')) by lia.
  apply Z_mod_plus_full.
Qed.

Lemma occurrences_rounds c (n m : nat) j :
  0 <= j < Z.of_nat n ->
  occurrences j
    (map (fun i : nat => (c + Z.of_nat i) mod Z.of_nat n) (seq 1 (n * m)))
  = Z.of_nat m.
Proof.
  intros Hj. induction m as [|m IH].
  - rewrite Nat.mul_0_r. reflexivity.
  - rewrite Nat.mul_succ_r, Nat.add_comm, indices_round, occurrences_app, IH.
    destruct (round_indices c n ltac:(lia)) as [Hnd Hin].
    rewrite (occurrences_once j _ Hnd (proj2 (Hin j) Hj)). lia.
Qed.

Section DispatchFacts.
Context `{libs : GoLibs} (logger : ConsoleLogger).

Lemma ModifyResponse_URL node r :
  URL (node_after (ModifyResponse logger node r)) = URL node.
Proof. rewrite ModifyResponse_node, classify_URL. reflexivity. Qed.

Lemma ModifyResponse_Calls node r :
  Calls (node_after (ModifyResponse logger node r))
  = atomic_AddUint64 (Calls node) 1.
Proof. rewrite ModifyResponse_node, classify_Calls. reflexivity. Qed.

(** X11. Handling a request advances the cursor by one and touches the
    counters of the selected node only: every other node is as before, no
    node changes its address, and when the upstream gives no response no
    counter changes at all. *)
Theorem X11_handler_touches_selected_node_only g upstream g' out :
  handleRoot logger g upstream = Some (g', out) ->
  exists s,
    nextNode logger g = Some s /\
    nodesIndex g' = atomic_AddUint64 (nodesIndex g) 1 /\
    length (ReverseProxyNodes g') = length (ReverseProxyNodes g) /\
    map URL (ReverseProxyNodes g') = map URL (ReverseProxyNodes g) /\
    (forall j, j <> Z.to_nat (nextIndex s) ->
       ReverseProxyNodes g' !! j = ReverseProxyNodes g !! j) /\
    match upstream with
    | None => ReverseProxyNodes g' = ReverseProxyNodes g /\ out = None
    | Some r =>
        out = Some (ModifyResponse logger (selected s) r) /\
        ReverseProxyNodes g' !! Z.to_nat (nextIndex s)
        = Some (node_after (ModifyResponse logger (selected s) r))
    end.
Proof.
  unfold handleRoot. intros Hh.
  destruct (nextNode logger g) as [s|] eqn:Hs; [|discriminate].
  exists s. split; [reflexivity|].
  destruct (nextNode_selected logger g s Hs) as (Hb & Hl & Hsame & Hc & _).
  destruct upstream as [r|]; inversion Hh; subst; clear Hh; simpl.
  - rewrite Hsame, Hc, length_insert.
    repeat split.
    + change (map URL ?l) with (URL <$> l).
      rewrite list_fmap_insert, ModifyResponse_URL.
      apply list_insert_id. rewrite list_lookup_fmap, Hl. reflexivity.
    + intros j Hj. apply list_lookup_insert_ne. congruence.
    + apply list_lookup_insert_eq. apply (lookup_lt_Some _ _ _ Hl).
  - rewrite Hsame, Hc. repeat split.
Qed.

Lemma handleAll_responses rs :
  forall nodes c,
    nodes <> [] -> 0 <= c ->
    c + Z.of_nat (length rs) < uint64_modulus ->
    exists nodes',
      handleAll logger (mkRegistry nodes c) (map Some rs)
      = Some (mkRegistry nodes' (c + Z.of_nat (length rs))) /\
      length nodes' = length nodes /\
      forall j node,
        nodes !! j = Some node ->
        exists node',
          nodes' !! j = Some node' /\
          URL node' = URL node /\
          (0 <= Calls node < uint64_modulus ->
           0 <= Calls node' < uint64_modulus) /\
          Calls node' mod uint64_modulus =
          (Calls node
           + occurrences (Z.of_nat j)
               (map (fun i : nat =>
                       (c + Z.of_nat i) mod Z.of_nat (length nodes))
                    (seq 1 (length rs)))) mod uint64_modulus.
Proof.
  induction rs as [|r rs IH]; intros nodes c Hne Hc Hw.
  - exists nodes. simpl. rewrite Z.add_0_r. repeat split.
    intros j node Hj. exists node. rewrite Z.add_0_r. repeat split; tauto.
  - simpl length in Hw. rewrite Nat2Z.inj_succ in Hw.
    destruct (nextNode_nonempty logger nodes c Hne) as [sel Hsel].
    assert (Hadd : atomic_AddUint64 c 1 = c + 1)
      by (apply atomic_AddUint64_no_wrap; lia).
    rewrite Hadd in Hsel.
    set (n := length nodes) in *.
    assert (Hn : 0 < Z.of_nat n)
      by (unfold n; destruct nodes; [congruence | simpl; lia]).
    pose proof (Z.mod_pos_bound (c + 1) (Z.of_nat n) Hn) as Hb.
    set (i0 := Z.to_nat ((c + 1) mod Z.of_nat n)) in *.
    assert (Hi0 : nodes !! i0 = Some sel).
    { pose proof (nextNode_selected logger _ _ Hsel) as (_ & Hl & _).
      exact Hl. }
    set (n1 := node_after (ModifyResponse logger sel r)).
    destruct (IH (<[i0 := n1]> nodes) (c + 1)) as (nodes' & Hrun & Hlen & Hall).
    { intros Hnil. apply (f_equal length) in Hnil.
      rewrite length_insert in Hnil. fold n in Hnil. simpl in Hnil. lia. }
    { lia. }
    { lia. }
    rewrite length_insert in Hlen, Hall. fold n in Hlen, Hall.
    exists nodes'. split; [|split; [exact Hlen|]].
    + simpl map. simpl handleAll. unfold handleRoot. rewrite Hsel. simpl.
      fold n1. fold i0. rewrite Hrun. f_equal. f_equal. simpl length. lia.
    + intros j node Hj. simpl length. rewrite indices_cons.
      simpl occurrences.
      destruct (decide (i0 = j)) as [<-|Hne'].
      * assert (node = sel) by congruence. subst node.
        destruct (Hall i0 n1) as (node' & Hn' & Hu & Hr & Hcalls).
        { apply list_lookup_insert_eq. apply (lookup_lt_Some _ _ _ Hi0). }
        exists node'. split; [exact Hn'|].
        unfold n1 in Hu, Hr, Hcalls.
        rewrite ModifyResponse_URL in Hu.
        rewrite ModifyResponse_Calls in Hr, Hcalls.
        split; [exact Hu|]. split.
        -- intros _. apply Hr. unfold atomic_AddUint64.
           apply Z.mod_pos_bound. rewrite uint64_modulus_eq. lia.
        -- rewrite Hcalls. unfold i0. rewrite Z2Nat.id by lia.
           rewrite Z.eqb_refl. unfold atomic_AddUint64.
           rewrite Zplus_mod_idemp_l. f_equal. lia.
      * destruct (Hall j node) as (node' & Hn' & Hu & Hr & Hcalls).
        { rewrite list_lookup_insert_ne by exact Hne'. exact Hj. }
        exists node'. split; [exact Hn'|]. split; [exact Hu|].
        split; [exact Hr|].
        rewrite Hcalls.
        assert (Hz : (c + 1) mod Z.of_nat n <> Z.of_nat j)
          by (unfold i0 in Hne'; lia).
        replace ((c + 1) mod Z.of_nat n =? Z.of_nat j) with false by lia.
        reflexivity.
Qed.

(** X12. Round robin balances the load: when every request gets a response
    and neither the cursor nor a counter wraps, [m] full rounds of requests
    add exactly [m] to [Calls] of every node, whatever the responses are. *)
Theorem X12_full_rounds_count_evenly nodes c (m : nat) rs :
  nodes <> [] ->
  0 <= c ->
  length rs = (length nodes * m)%nat ->
  c + Z.of_nat (length rs) < uint64_modulus ->
  exists nodes',
    handleAll logger (mkRegistry nodes c) (map Some rs)
    = Some (mkRegistry nodes' (c + Z.of_nat (length rs))) /\
    length nodes' = length nodes /\
    forall j node,
      nodes !! j = Some node ->
      0 <= Calls node ->
      Calls node + Z.of_nat m < uint64_modulus ->
      exists node',
        nodes' !! j = Some node' /\
        URL node' = URL node /\
        Calls node' = Calls node + Z.of_nat m.
Proof.
  intros Hne Hc Hlen Hw.
  destruct (handleAll_responses rs nodes c Hne Hc Hw)
    as (nodes' & Hrun & Hl & Hall).
  exists nodes'. split; [exact Hrun|]. split; [exact Hl|].
  intros j node Hj H0 Hm.
  destruct (Hall j node Hj) as (node' & Hn' & Hu & Hr & Hcalls).
  exists node'. split; [exact Hn'|]. split; [exact Hu|].
  rewrite Hlen, occurrences_rounds in Hcalls.
  - rewrite !Z.mod_small in Hcalls; [exact Hcalls | lia | apply Hr; lia].
  - apply lookup_lt_Some in Hj. lia.
Qed.

End DispatchFacts.

Lemma X11_handler_touches_selected_node_only_witness :
  let g := mkRegistry [buildNode "a"; buildNode "b"] 0 in
  exists g' o,
    handleRoot (libs := RefLibs) Sample.logger g
               (Some (Sample.plain 200 Sample.rpc_result)) = Some (g', Some o) /\
    nodesIndex g' = 1 /\
    ReverseProxyNodes g' = [buildNode "a"; mkNode "b" 1 1 0 0].
Proof.
  intros g. eexists _, _. split; [vm_compute; reflexivity|].
  destruct (X11_handler_touches_selected_node_only (libs := RefLibs)
              Sample.logger g (Some (Sample.plain 200 Sample.rpc_result))
              _ _ ltac:(vm_compute; reflexivity))
    as (s & _ & Hc & _).
  split; [exact Hc | reflexivity].
Defined.

Lemma X12_full_rounds_count_evenly_witness :
  let nodes := [buildNode "a"; buildNode "b"] in
  let rs := [Sample.plain 200 Sample.rpc_result;
             Sample.plain 200 Sample.rpc_error;
             Sample.broken 502 EmptyString "unexpected EOF";
             Sample.plain 301 EmptyString] in
  exists nodes',
    handleAll (libs := RefLibs) Sample.logger (mkRegistry nodes 0)
              (map Some rs) = Some (mkRegistry nodes' 4) /\
    exists a b,
      nodes' = [a; b] /\ Calls a = 2 /\ Calls b = 2.
Proof.
  intros nodes rs.
  destruct (X12_full_rounds_count_evenly (libs := RefLibs) Sample.logger
              nodes 0 2 rs ltac:(discriminate) ltac:(lia) eq_refl
              ltac:(vm_compute; reflexivity))
    as (nodes' & Hrun & Hlen & Hall).
  exists nodes'. split; [exact Hrun|].
  destruct nodes' as [|a [|b [|? ?]]]; try discriminate.
  exists a, b. split; [reflexivity|].
  destruct (Hall 0%nat _ eq_refl ltac:(vm_compute; congruence)
              ltac:(vm_compute; reflexivity)) as (a' & Ha & _ & Hca).
  destruct (Hall 1%nat _ eq_refl ltac:(vm_compute; congruence)
              ltac:(vm_compute; reflexivity)) as (b' & Hb & _ & Hcb).
  inversion Ha; subst a'. inversion Hb; subst b'.
  split; [exact Hca | exact Hcb].
Defined.

(** ** The health handler *)

Section HealthMore.
Context `{libs : GoLibs} (logger : ConsoleLogger).

(** X13. Whatever the upstream does, the health handler answers 200, 500,
    502 or 503; it writes a body and a Content-Type header only with 502;
    it logs one line with every answer but 200; and in health-proxy mode it
    answers 200 only when the upstream body was read and decoded and its
    result is the boolean false. *)
Theorem X13_health_replies nodeHealthProxy g up reply :
  healthz logger nodeHealthProxy g up = Some reply ->
  (status reply = 200 \/ status reply = 500 \/ status reply = 502
   \/ status reply = 503) /\
  (status reply <> 502 ->
   written reply = EmptyString /\ replyHeader reply = ∅) /\
  (status reply = 200 -> reply_log reply = []) /\
  (status reply <> 200 -> exists line, reply_log reply = [line]) /\
  (nodeHealthProxy = true ->
   (status reply = 200 <->
    exists body jsonResp,
      up = Responded body /\
      fault body = None /\
      json_Decode (bytes_NewReader (pending body)) = Ok jsonResp /\
      jsonResp !! "result" = Some (JBool false))).
Proof.
  unfold healthz, probe, StatusOK, StatusInternalServerError,
    StatusBadGateway, StatusServiceUnavailable. intros Hh.
  destruct nodeHealthProxy.
  2:{ inversion Hh; subst. simpl.
      repeat split; try (intros; congruence); auto. }
  destruct (ReverseProxyNodes g !! 0%nat) as [node|]; [|discriminate].
  inversion Hh; subst reply; clear Hh.
  unfold io_ReadAll.
  destruct up as [err|err|body]; simpl.
  - repeat split; try (intros; congruence); eauto.
    intros (b & j & Hup & _). discriminate.
  - repeat split; try (intros; congruence); eauto.
    intros (b & j & Hup & _). discriminate.
  - destruct (fault body) as [err|] eqn:Hf; simpl.
    { repeat split; try (intros; congruence); eauto.
      intros (b & j & Hup & Hf' & _). inversion Hup; subst. congruence. }
    destruct (json_Decode (bytes_NewReader (pending body)))
      as [jsonResp|err] eqn:Hd; simpl.
    2:{ repeat split; try (intros; congruence); eauto.
        intros (b & j & Hup & _ & Hd' & _). inversion Hup; subst.
        congruence. }
    destruct (jsonResp !! "result") as [[| [|] | | | |]|] eqn:Hr; simpl;
      repeat split; try (intros; congruence); eauto;
      try (intros (b & j & Hup & _ & Hd' & Hr'); inversion Hup; subst;
           congruence).
    intros _. exists body, jsonResp. auto.
Qed.

End HealthMore.

Lemma X13_health_replies_witness :
  let g := mkRegistry [Sample.node] 0 in
  exists reply,
    healthz (libs := RefLibs) Sample.logger true g
            (Responded (bytes_NewReader Sample.syncing_true)) = Some reply /\
    (status reply <> 200 -> exists line, reply_log reply = [line]) /\
    (status reply <> 502 ->
     written reply = EmptyString /\ replyHeader reply = ∅).
Proof.
  intros g. eexists. split; [reflexivity|].
  destruct (X13_health_replies (libs := RefLibs) Sample.logger true g
              (Responded (bytes_NewReader Sample.syncing_true)) _ eq_refl)
    as (_ & Hw & _ & Hl & _).
  split; [exact Hl | exact Hw].
Defined.

(** ** The metrics reporter, running *)

Lemma metricsLoop_ticks logger snaps :
  forall events lines,
    metricsLoop logger (map Tick snaps ++ events) lines =
    metricsLoop logger events (lines ++ flat_map (printNodes logger) snaps).
Proof.
  induction snaps as [|nodes snaps IH]; intros events lines.
  - simpl. rewrite app_nil_r. reflexivity.
  - simpl. rewrite IH, <- app_assoc. reflexivity.
Qed.

(** X14. With a positive interval the reporter logs, for every tick and in
    order, one banner line and one line per node, all at INFO level; it
    returns when the context is cancelled and ignores whatever comes
    after; until then it stays in its loop. *)
Theorem X14_reporter_runs_until_cancelled logger interval snaps later :
  0 < interval ->
  runPrintNodeMetrics logger interval (map Tick snaps ++ Cancelled :: later)
  = Returned true (flat_map (printNodes logger) snaps) /\
  runPrintNodeMetrics logger interval (map Tick snaps)
  = Waiting (flat_map (printNodes logger) snaps) /\
  Forall (fun line => fst line = INFO /\ isMetrics line = true)
         (flat_map (printNodes logger) snaps) /\
  length (flat_map (printNodes logger) snaps)
  = (length snaps + length (concat snaps))%nat.
Proof.
  intros Hi. unfold runPrintNodeMetrics.
  replace (interval =? 0) with false by lia.
  replace (interval <? 0) with false by lia.
  split; [rewrite metricsLoop_ticks; reflexivity|].
  split.
  { rewrite <- (app_nil_r (map Tick snaps)), metricsLoop_ticks.
    reflexivity. }
  assert (Hprint : forall nodes,
             Forall (fun line => fst line = INFO /\ isMetrics line = true)
                    (printNodes logger nodes)
             /\ length (printNodes logger nodes) = S (length nodes)).
  { intros nodes. unfold printNodes. simpl. split.
    - constructor; [split; reflexivity|].
      induction nodes as [|n nodes IH]; simpl; constructor;
        [split; reflexivity | exact IH].
    - f_equal. induction nodes as [|n nodes IH]; simpl; congruence. }
  split.
  - induction snaps as [|nodes snaps IH]; [constructor|].
    change (flat_map (printNodes logger) (nodes :: snaps))
      with (printNodes logger nodes ++ flat_map (printNodes logger) snaps).
    apply Forall_app. split; [apply Hprint | exact IH].
  - induction snaps as [|nodes snaps IH]; [reflexivity|].
    change (flat_map (printNodes logger) (nodes :: snaps))
      with (printNodes logger nodes ++ flat_map (printNodes logger) snaps).
    change (concat (nodes :: snaps)) with (nodes ++ concat snaps).
    rewrite !length_app, IH, (proj2 (Hprint nodes)). simpl. lia.
Qed.

Lemma X14_reporter_runs_until_cancelled_witness :
  runPrintNodeMetrics Sample.logger 300000000000
    [Tick [Sample.node]; Tick [mkNode "https://eth.llamarpc.com" 2 1 1 0];
     Cancelled; Tick [Sample.node]]
  = Returned true
      [(INFO, MsgMetricsStart);
       (INFO, MsgNodeMetrics "https://eth.llamarpc.com" 0 0 0 0);
       (INFO, MsgMetricsStart);
       (INFO, MsgNodeMetrics "https://eth.llamarpc.com" 2 1 1 0)].
Proof.
  exact (proj1 (X14_reporter_runs_until_cancelled Sample.logger 300000000000
                  [[Sample.node]; [mkNode "https://eth.llamarpc.com" 2 1 1 0]]
                  [Tick [Sample.node]] ltac:(lia))).
Defined.

(** ** The director *)

Lemma substring_prefix q t :
  substring 0 (String.length q) (q +:+ t) = q.
Proof.
  induction q as [|c q IH]; simpl.
  - destruct t; reflexivity.
  - rewrite IH. reflexivity.
Qed.

Lemma substring_skip q t k :
  substring (String.length q) k (q +:+ t) = substring 0 k t.
Proof. induction q as [|c q IH]; simpl; [reflexivity | exact IH]. Qed.

Lemma length_append q t :
  String.length (q +:+ t) = (String.length q + String.length t)%nat.
Proof. induction q as [|c q IH]; simpl; [reflexivity | rewrite IH; lia]. Qed.

Lemma substring_all s : substring 0 (String.length s) s = s.
Proof.
  induction s as [|c s IH]; simpl; [reflexivity | rewrite IH; reflexivity].
Qed.

Lemma substring_split s :
  forall k, (k <= String.length s)%nat ->
  s = substring 0 k s +:+ substring k (String.length s - k) s.
Proof.
  induction s as [|c s IH]; intros k Hk.
  - destruct k; reflexivity.
  - destruct k as [|k].
    + rewrite Nat.sub_0_r, substring_all. reflexivity.
    + simpl in Hk.
      change (String c s =
              String c (substring 0 k s
                        +:+ substring k (String.length s - k) s)).
      f_equal. apply IH. lia.
Qed.

Lemma strings_HasSuffix_slash s :
  strings_HasSuffix s "/" = true <-> exists q, s = q +:+ "/".
Proof.
  unfold strings_HasSuffix. simpl String.length. split.
  - intros H. apply andb_true_iff in H as [Hn He].
    apply Nat.leb_le in Hn. apply String.eqb_eq in He.
    exists (substring 0 (String.length s - 1) s).
    rewrite (substring_split s (String.length s - 1)) at 1 by lia.
    f_equal. replace (String.length s - (String.length s - 1))%nat
      with 1%nat by lia. exact He.
  - intros [q ->]. rewrite length_append. simpl String.length.
    apply andb_true_iff. split; [apply Nat.leb_le; lia|].
    replace (String.length q + 1 - 1)%nat with (String.length q) by lia.
    rewrite substring_skip. reflexivity.
Qed.

(** X15. The director of [buildNode] leaves a request with the upstream's
    host, with X-Forwarded-For present and empty and every other header as
    the library's director left it, and with exactly one trailing slash
    removed from its path: a path that ends with a slash loses that one
    character (so [/] becomes the empty path), any other path is kept. *)
Theorem X15_director originDirector target_Host req :
  let out := Director originDirector target_Host req in
  let before := originDirector req in
  Host out = target_Host /\
  RequestHeader out !! "X-Forwarded-For" = Some [] /\
  (forall key, key <> "X-Forwarded-For" ->
     RequestHeader out !! key = RequestHeader before !! key) /\
  (forall q, Path before = q +:+ "/" -> Path out = q) /\
  ((forall q, Path before <> q +:+ "/") -> Path out = Path before).
Proof.
  intros out before. unfold out, Director. fold before.
  destruct (strings_HasSuffix (Path before) "/") eqn:Hs; simpl.
  - split; [reflexivity|]. split; [apply lookup_insert_eq|].
    split; [intros key Hk; apply lookup_insert_ne; congruence|].
    split.
    + intros q Hq. rewrite Hq, length_append. simpl String.length.
      replace (String.length q + 1 - 1)%nat with (String.length q) by lia.
      apply substring_prefix.
    + intros Hno. apply strings_HasSuffix_slash in Hs as [q Hq].
      destruct (Hno q Hq).
  - split; [reflexivity|]. split; [apply lookup_insert_eq|].
    split; [intros key Hk; apply lookup_insert_ne; congruence|].
    split; [|reflexivity].
    intros q Hq.
    assert (strings_HasSuffix (Path before) "/" = true)
      by (apply strings_HasSuffix_slash; eauto).
    congruence.
Qed.

(** ** The extras on concrete inputs *)

Lemma X4_body_and_length_restored_witness :
  let r := mkResponse 200 (Header_Set ∅ "Content-Length" "9999")
                      (bytes_NewReader Sample.rpc_result) (-1) in
  let res :=
    resp_after (ModifyResponse (libs := RefLibs) Sample.logger Sample.node r) in
  Body res = bytes_NewReader Sample.rpc_result /\
  ContentLength res = len (pending (Body res)) /\
  Header_Get (Header res) "Content-Length" = pretty (len Sample.rpc_result) /\
  (forall key, key <> "Content-Length" ->
     Header res !! key = Header r !! key) /\
  Header_Get (Header res) "Content-Encoding" =
    Header_Get (Header r) "Content-Encoding".
Proof.
  intros r res.
  exact (X4_body_and_length_restored (libs := RefLibs) Sample.logger
           Sample.node r eq_refl).
Defined.

Lemma X5_hook_idempotent_witness :
  let r := Sample.encoded "gzip" 200 Sample.gzip_rpc_error in
  let o := ModifyResponse (libs := RefLibs) Sample.logger Sample.node r in
  let o' :=
    ModifyResponse (libs := RefLibs) Sample.logger Sample.node (resp_after o) in
  resp_after o' = resp_after o /\
  returned o' = None /\
  finalStatus (libs := RefLibs) Sample.logger Sample.node (resp_after o)
  = finalStatus (libs := RefLibs) Sample.logger Sample.node r /\
  (URL Sample.node = URL Sample.node -> logged o' = logged o).
Proof.
  intros r o o'.
  exact (X5_hook_idempotent (libs := RefLibs) Sample.logger Sample.node
           Sample.node r eq_refl).
Defined.

(** The director on two paths: the root path becomes empty, and of two
    trailing slashes one is left. *)
Lemma director_paths :
  let keep (req : Request) := req in
  Path (Director keep "1rpc.io" (mkRequest "/" ∅ "localhost:8080"))
  = EmptyString /\
  Path (Director keep "1rpc.io" (mkRequest "/eth//" ∅ "localhost:8080"))
  = "/eth/" /\
  Path (Director keep "1rpc.io" (mkRequest "/eth" ∅ "localhost:8080"))
  = "/eth".
Proof. repeat split. Qed.

(** Start-up on the three ways to fail. *)
Lemma startup_failures :
  startup RefURL.Parse false [] = Exited NoNodesSpecified /\
  startup RefURL.Parse true ["https://a"; "https://b"]
  = Exited HealthProxyOneNode /\
  startup RefURL.Parse false
          ["https://a"; String (Ref.char 127) EmptyString; "https://b"]
  = Exited (CannotParseNodeURL (String (Ref.char 127) EmptyString)).
Proof. repeat split. Qed.
